(** * Bundle handling of the PDF template playground

    A shallow embedding of [src/components/composables/bundle-handling.ts]:
    [packBundle], and the operations of [useBundleHandling] ([loadBundle],
    [downloadBundle], [loadBundlesInfo], [getBundle], [storeBundle], the two
    watchers and the unload hook), with the properties of the bundle
    archive protocol and of the session reconciler proved about them.

    What the composable gets from its platform (the JSON object, JSZip, the
    remote services) is modelled separately from the composable's own
    code: JSON through the interface [JsonApi], JSZip through its file
    table. *)

From Stdlib Require Import Ascii.
From stdpp Require Import base strings gmap list pretty.

Set Warnings "-register-all".
Set Default Proof Using "Type".

(* ===================================================================== *)
(** ** JSON values *)
(* ===================================================================== *)

(** The values [JSON.parse] returns. An object is a finite map from
    property names to values, so that equality of [json] is the deep
    equality of the values (property order is not part of it). *)
Inductive json :=
| JNull
| JBool (b : bool)
| JNum (n : Z)
| JStr (s : string)
| JArr (l : list json)
| JObj (o : gmap string json).

(** A JavaScript object literal / plain object, as the code uses them for
    [options]. *)
Abbreviation jsobject := (gmap string json).

(** The one-character strings of [s], in order: what indexing a string
    yields. *)
Fixpoint string_chars (s : string) : list string :=
  match s with
  | EmptyString => []
  | String c s' => String c EmptyString :: string_chars s'
  end.

(** [{"0": x0, "1": x1, ...}], the own enumerable properties of an array,
    starting at index [i]. *)
Fixpoint index_props (i : nat) (l : list json) : jsobject :=
  match l with
  | [] => ∅
  | x :: l' => <[pretty i := x]> (index_props (S i) l')
  end.

(** The own enumerable properties that an object spread [...v] copies:
    those of an object, the indices of an array or of a string, and none
    for [null], booleans and numbers. *)
Definition own_props (v : json) : jsobject :=
  match v with
  | JObj o => o
  | JArr l => index_props 0 l
  | JStr s => index_props 0 (JStr <$> string_chars s)
  | JNull | JBool _ | JNum _ => ∅
  end.

(** [{ ...a, ...b }]: the properties of [a] overlaid with those of [b];
    [b] wins on the keys both have. *)
Definition spread (a b : jsobject) : jsobject := b ∪ a.

(** The platform's [JSON] object: [JSON.parse] ([None] when it throws a
    [SyntaxError]), [JSON.stringify(v)] and [JSON.stringify(v, null, 2)]. *)
Class JsonApi := {
  JSON_parse : string → option json;
  JSON_stringify : json → string;
  JSON_stringify_indent2 : json → string;
}.

(* ===================================================================== *)
(** ** A concrete JSON reader and printer *)
(* ===================================================================== *)

(** An executable instance of [JsonApi], used to run the operations on
    concrete archives. It reads and prints RFC 8259 texts whose numbers are
    integers and whose strings use the two-character escapes only; on a
    text outside this fragment it answers [None]. Object members are
    printed in the order of the finite map. *)
Module MiniJson.

Definition dquote : ascii := "034"%char.
Definition backslash : ascii := "\"%char.
Definition newline : ascii := "010"%char.

Definition is_ws (c : ascii) : bool :=
  bool_decide (c = " "%char) || bool_decide (c = newline)
  || bool_decide (c = "009"%char) || bool_decide (c = "013"%char).

Fixpoint skip_ws (s : string) : string :=
  match s with
  | String c s' => if is_ws c then skip_ws s' else s
  | EmptyString => EmptyString
  end.

Definition digit_of (c : ascii) : option Z :=
  let n := Z.of_nat (nat_of_ascii c) in
  if bool_decide (48 ≤ n ≤ 57)%Z then Some (n - 48)%Z else None.

(** The digits at the head of [s], accumulated onto [acc]. *)
Fixpoint read_digits (acc : Z) (s : string) : Z * string :=
  match s with
  | String c s' =>
      match digit_of c with
      | Some d => read_digits (10 * acc + d) s'
      | None => (acc, s)
      end
  | EmptyString => (acc, s)
  end.

(** A fraction or an exponent follows: not an integer literal. *)
Definition continues_number (s : string) : bool :=
  match s with
  | String c _ =>
      bool_decide (c = "."%char) || bool_decide (c = "e"%char)
      || bool_decide (c = "E"%char) || bool_decide (is_Some (digit_of c))
  | EmptyString => false
  end.

(** [int = zero / (digit1-9 *DIGIT)] after the optional minus sign. *)
Definition read_nat_literal (s : string) : option (Z * string) :=
  match s with
  | String c s' =>
      match digit_of c with
      | Some d =>
          let '(n, rest) :=
            if bool_decide (d = 0%Z) then (0%Z, s') else read_digits d s' in
          if continues_number rest then None else Some (n, rest)
      | None => None
      end
  | EmptyString => None
  end.

Definition unescape (c : ascii) : option ascii :=
  if bool_decide (c = dquote) then Some dquote
  else if bool_decide (c = backslash) then Some backslash
  else if bool_decide (c = "/"%char) then Some "/"%char
  else if bool_decide (c = "n"%char) then Some newline
  else if bool_decide (c = "t"%char) then Some "009"%char
  else if bool_decide (c = "r"%char) then Some "013"%char
  else if bool_decide (c = "b"%char) then Some "008"%char
  else if bool_decide (c = "f"%char) then Some "012"%char
  else None.

(** The characters of a string literal up to its closing quote; the
    opening quote has been read. Control characters must be escaped. *)
Fixpoint read_string_body (s : string) : option (string * string) :=
  match s with
  | EmptyString => None
  | String c s' =>
      if bool_decide (c = dquote) then Some (EmptyString, s')
      else if bool_decide (c = backslash) then
        match s' with
        | String e s'' =>
            c' ← unescape e;
            '(body, rest) ← read_string_body s'';
            Some (String c' body, rest)
        | EmptyString => None
        end
      else if bool_decide (nat_of_ascii c < 32)%nat then None
      else '(body, rest) ← read_string_body s'; Some (String c body, rest)
  end.

Definition expect (lit : string) (v : json) (s : string) : option (json * string) :=
  if String.prefix lit s
  then Some (v, String.substring (String.length lit)
                  (String.length s - String.length lit) s)
  else None.

(** Recursive descent, on a bound [n] for the number of nested calls. *)
Fixpoint read_value (n : nat) (s : string) : option (json * string) :=
  match n with
  | O => None
  | S n =>
      match skip_ws s with
      | EmptyString => None
      | String c s' as s0 =>
          if bool_decide (c = "n"%char) then expect "null" JNull s0
          else if bool_decide (c = "t"%char) then expect "true" (JBool true) s0
          else if bool_decide (c = "f"%char) then expect "false" (JBool false) s0
          else if bool_decide (c = dquote) then
            '(str, rest) ← read_string_body s'; Some (JStr str, rest)
          else if bool_decide (c = "-"%char) then
            '(k, rest) ← read_nat_literal s'; Some (JNum (- k), rest)
          else if bool_decide (c = "["%char) then
            match skip_ws s' with
            | String "]" rest => Some (JArr [], rest)
            | _ => '(l, rest) ← read_elements n s'; Some (JArr l, rest)
            end
          else if bool_decide (c = "{"%char) then
            match skip_ws s' with
            | String "}" rest => Some (JObj ∅, rest)
            | _ => '(o, rest) ← read_members n ∅ s'; Some (JObj o, rest)
            end
          else '(k, rest) ← read_nat_literal s0; Some (JNum k, rest)
      end
  end
with read_elements (n : nat) (s : string) : option (list json * string) :=
  match n with
  | O => None
  | S n =>
      '(v, rest) ← read_value n s;
      match skip_ws rest with
      | String "," rest' => '(l, rest'') ← read_elements n rest'; Some (v :: l, rest'')
      | String "]" rest' => Some ([v], rest')
      | _ => None
      end
  end
with read_members (n : nat) (acc : jsobject) (s : string) : option (jsobject * string) :=
  match n with
  | O => None
  | S n =>
      match skip_ws s with
      | String c s' =>
          if bool_decide (c = dquote) then
            '(key, rest) ← read_string_body s';
            match skip_ws rest with
            | String ":" rest' =>
                '(v, rest'') ← read_value n rest';
                (* a repeated name keeps its last value *)
                let acc' := <[key := v]> acc in
                match skip_ws rest'' with
                | String "," rest3 => read_members n acc' rest3
                | String "}" rest3 => Some (acc', rest3)
                | _ => None
                end
            | _ => None
            end
          else None
      | EmptyString => None
      end
  end.

Definition parse (s : string) : option json :=
  '(v, rest) ← read_value (2 * String.length s + 2) s;
  match skip_ws rest with
  | EmptyString => Some v
  | _ => None
  end.

Definition escape_char (c : ascii) : string :=
  if bool_decide (c = dquote) then String backslash (String dquote EmptyString)
  else if bool_decide (c = backslash) then String backslash (String backslash EmptyString)
  else if bool_decide (c = newline) then String backslash "n"
  else if bool_decide (c = "009"%char) then String backslash "t"
  else if bool_decide (c = "013"%char) then String backslash "r"
  else if bool_decide (c = "008"%char) then String backslash "b"
  else if bool_decide (c = "012"%char) then String backslash "f"
  else String c EmptyString.

Fixpoint escape (s : string) : string :=
  match s with
  | EmptyString => EmptyString
  | String c s' => escape_char c +:+ escape s'
  end.

Definition quote (s : string) : string :=
  String dquote (escape s +:+ String dquote EmptyString).

Fixpoint join (sep : string) (l : list string) : string :=
  match l with
  | [] => EmptyString
  | [x] => x
  | x :: l' => x +:+ sep +:+ join sep l'
  end.

(** [JSON.stringify(v)] *)
Fixpoint stringify (v : json) : string :=
  match v with
  | JNull => "null"
  | JBool b => if b then "true" else "false"
  | JNum n => pretty n
  | JStr s => quote s
  | JArr l => "[" +:+ join "," (stringify <$> l) +:+ "]"
  | JObj o =>
      "{" +:+ join ","
        (map_fold (λ k x acc, (quote k +:+ ":" +:+ stringify x) :: acc) [] o)
      +:+ "}"
  end.

Fixpoint spaces (n : nat) : string :=
  match n with O => EmptyString | S n => String " " (spaces n) end.

Definition line_break (depth : nat) : string :=
  String newline (spaces (2 * depth)).

(** [JSON.stringify(v, null, 2)], at nesting depth [depth]. *)
Fixpoint stringify_at (depth : nat) (v : json) : string :=
  match v with
  | JNull => "null"
  | JBool b => if b then "true" else "false"
  | JNum n => pretty n
  | JStr s => quote s
  | JArr l =>
      match l with
      | [] => "[]"
      | _ =>
          "[" +:+ line_break (S depth)
          +:+ join ("," +:+ line_break (S depth)) (stringify_at (S depth) <$> l)
          +:+ line_break depth +:+ "]"
      end
  | JObj o =>
      match map_fold (λ k x acc,
               (quote k +:+ ": " +:+ stringify_at (S depth) x) :: acc) [] o with
      | [] => "{}"
      | members =>
          "{" +:+ line_break (S depth)
          +:+ join ("," +:+ line_break (S depth)) members
          +:+ line_break depth +:+ "}"
      end
  end.

#[export] Instance api : JsonApi := {|
  JSON_parse := parse;
  JSON_stringify := stringify;
  JSON_stringify_indent2 := stringify_at 0;
|}.

(** [q s] is [s] between double quotes, for writing JSON texts. *)
Definition q (s : string) : string :=
  String dquote (s +:+ String dquote EmptyString).

End MiniJson.

(* ===================================================================== *)
(** ** JSZip *)
(* ===================================================================== *)

(** A [JSZip] instance is modelled by its [files] table: entry name to
    content, in insertion order, each name once. Contents are byte
    strings, whether they were written from text or from a [Blob]; a
    folder is an entry whose name ends with a slash, with no content. *)
Module JsZip.

Definition t : Type := list (string * string).

(** [new JsZip()] *)
Definition empty : t := [].

(** [zip.files[name]] *)
Fixpoint get (name : string) (z : t) : option string :=
  match z with
  | [] => None
  | (k, v) :: z' => if decide (k = name) then Some v else get name z'
  end.

(** [this.files[name] = object]: a known name keeps its place. *)
Fixpoint set (name data : string) (z : t) : t :=
  match z with
  | [] => [(name, data)]
  | (k, v) :: z' =>
      if decide (k = name) then (k, data) :: z' else (k, v) :: set name data z'
  end.

(** The names of the entries, as [for (key in zip.files)] visits them. *)
Definition keys (z : t) : list string := z.*1.

Fixpoint ends_with_slash (s : string) : bool :=
  match s with
  | EmptyString => false
  | String c EmptyString => bool_decide (c = "/"%char)
  | String _ s' => ends_with_slash s'
  end.

Definition forceTrailingSlash (path : string) : string :=
  if ends_with_slash path then path else path +:+ "/".

(** [path.lastIndexOf("/")], counting from [i] at the head of [s]. *)
Fixpoint lastIndexOf_slash (i : nat) (s : string) : option nat :=
  match s with
  | EmptyString => None
  | String c s' =>
      match lastIndexOf_slash (S i) s' with
      | Some j => Some j
      | None => if bool_decide (c = "/"%char) then Some i else None
      end
  end.

Definition parentFolder (path : string) : string :=
  let path :=
    if ends_with_slash path
    then String.substring 0 (String.length path - 1) path else path in
  match lastIndexOf_slash 0 path with
  | Some lastSlash =>
      if bool_decide (0 < lastSlash)%nat
      then String.substring 0 lastSlash path else EmptyString
  | None => EmptyString
  end.

(** [fileAdd], with [createFolders] at its default [true]: the folders
    on the path of the entry are added first when they are missing
    ([folderAdd]). [n] bounds the depth of the path. *)
Fixpoint fileAdd (n : nat) (name data : string) (dir : bool) (z : t) : t :=
  let name := if dir then forceTrailingSlash name else name in
  let z :=
    match n with
    | O => z
    | S n =>
        match parentFolder name with
        | EmptyString => z
        | parent =>
            let folder := forceTrailingSlash parent in
            match get folder z with
            | Some _ => z
            | None => fileAdd n folder EmptyString true z
            end
        end
    end in
  set name data z.

(** [zip.file(name, data)] *)
Definition file (name data : string) (z : t) : t :=
  fileAdd (String.length name) name data false z.

(** [delete zip.files[name]], as [zip.remove(name)] does for a file. *)
Fixpoint remove (name : string) (z : t) : t :=
  match z with
  | [] => []
  | (k, v) :: z' =>
      if decide (k = name) then remove name z' else (k, v) :: remove name z'
  end.

Fixpoint has_slash (s : string) : bool :=
  match s with
  | EmptyString => false
  | String c s' => bool_decide (c = "/"%char) || has_slash s'
  end.

End JsZip.

(** The bytes of an archive, as a [Blob] or an [ArrayBuffer], are
    represented by what [JsZip.loadAsync] makes of them: the file table of
    a zip container, or bytes that are no zip container. *)
Inductive ArchiveBytes :=
| ZipBytes (z : JsZip.t)
| OtherBytes (raw : string).

(** What the code throws and catches. *)
Inductive exn :=
| SyntaxError            (* [JSON.parse] on a text that is not JSON *)
| TypeError (msg : string)
| Error (msg : string).

(** [`${e}`]: the name of the exception and its message. The message
    that the platform gives a [SyntaxError] is left out. *)
Definition exn_toString (e : exn) : string :=
  match e with
  | SyntaxError => "SyntaxError"
  | TypeError msg => "TypeError: " +:+ msg
  | Error msg => "Error: " +:+ msg
  end.

(** [JsZip.loadAsync(bytes)] *)
Definition JsZip_loadAsync (b : ArchiveBytes) : exn + JsZip.t :=
  match b with
  | ZipBytes z => inr z
  | OtherBytes _ => inl (Error "Can't find end of central directory")
  end.

(** [zip.generateAsync({ type: "blob" })] *)
Definition JsZip_generateAsync (z : JsZip.t) : ArchiveBytes := ZipBytes z.

(* ===================================================================== *)
(** ** The data of the composable *)
(* ===================================================================== *)

Module Asset.
Record t := mk { name : string; blob : string }.
End Asset.

Module BundleInfo.
Record t := mk { id : string; name : string }.
End BundleInfo.

(** Modelled from the spec: the constant [BundleAssetsFolder] of
    [@/models/asset], the fixed assets-folder prefix; it is the folder
    [packBundle] writes the assets to. *)
Definition BundleAssetsFolder : string := "assets".

(** The fields of [RenderTemplateDataViewModel] that the composable reads
    or writes. [None] is [undefined]. *)
Record RenderTemplateDataViewModel := mkData {
  htmlTemplate : option string;
  headerHtmlTemplate : option string;
  footerHtmlTemplate : option string;
  options : jsobject;
  model : json;
  modelStr : string;
  assets : list Asset.t;
  templateEngine : option string;
}.

Definition set_htmlTemplate (x : option string) (d : RenderTemplateDataViewModel) :=
  mkData x (headerHtmlTemplate d) (footerHtmlTemplate d) (options d)
    (model d) (modelStr d) (assets d) (templateEngine d).
Definition set_headerHtmlTemplate (x : option string) (d : RenderTemplateDataViewModel) :=
  mkData (htmlTemplate d) x (footerHtmlTemplate d) (options d)
    (model d) (modelStr d) (assets d) (templateEngine d).
Definition set_footerHtmlTemplate (x : option string) (d : RenderTemplateDataViewModel) :=
  mkData (htmlTemplate d) (headerHtmlTemplate d) x (options d)
    (model d) (modelStr d) (assets d) (templateEngine d).
Definition set_options (x : jsobject) (d : RenderTemplateDataViewModel) :=
  mkData (htmlTemplate d) (headerHtmlTemplate d) (footerHtmlTemplate d) x
    (model d) (modelStr d) (assets d) (templateEngine d).
Definition set_model (x : json) (d : RenderTemplateDataViewModel) :=
  mkData (htmlTemplate d) (headerHtmlTemplate d) (footerHtmlTemplate d) (options d)
    x (modelStr d) (assets d) (templateEngine d).
Definition set_modelStr (x : string) (d : RenderTemplateDataViewModel) :=
  mkData (htmlTemplate d) (headerHtmlTemplate d) (footerHtmlTemplate d) (options d)
    (model d) x (assets d) (templateEngine d).
Definition set_assets (x : list Asset.t) (d : RenderTemplateDataViewModel) :=
  mkData (htmlTemplate d) (headerHtmlTemplate d) (footerHtmlTemplate d) (options d)
    (model d) (modelStr d) x (templateEngine d).
Definition set_templateEngine (x : option string) (d : RenderTemplateDataViewModel) :=
  mkData (htmlTemplate d) (headerHtmlTemplate d) (footerHtmlTemplate d) (options d)
    (model d) (modelStr d) (assets d) x.

(** [IncludedFiles]; a flag that is left out counts as [false]. *)
Module IncludedFiles.
Record t := mk {
  index : bool;
  header : bool;
  footer : bool;
  options : bool;
  assets : bool;
  exampleModel : bool;
}.
End IncludedFiles.

Definition includedFilesAll : IncludedFiles.t :=
  {| IncludedFiles.index := true;
     IncludedFiles.header := true;
     IncludedFiles.footer := true;
     IncludedFiles.options := true;
     IncludedFiles.assets := true;
     IncludedFiles.exampleModel := true |}.

(** Truthiness of a [string | undefined]. *)
Definition truthy (s : option string) : bool :=
  match s with
  | Some (String _ _) => true
  | Some EmptyString | None => false
  end.

(** [@/models/render-data-base], of which the sources are not part of the
    development: the baseline options record and the default session. *)
Class RenderDataBase := {
  getBaseOptions : jsobject;
  getBaseRenderData : RenderTemplateDataViewModel;
}.

(** What [fetch] of a bundle resolves to. *)
Record BundleFormData := mkForm {
  form_bundle : option ArchiveBytes;   (* [data.get("bundle")], [null] when missing *)
  form_name : string;
  form_templateEngine : string;
}.

Inductive FetchResult :=
| FetchRejected (e : exn)
| FetchResponse (ok : bool) (statusText : string) (formData : exn + BundleFormData).

Record SaveRequest := mkSave {
  save_bundle : ArchiveBytes;
  save_name : string;
  save_id : string;
  save_templateEngine : option string;
}.

(** [@/swagger-client] and [@/config/server]: the remote bundle
    directory. A request answers with a value or throws. *)
Class Server := {
  serverBaseUrl : string;
  fetch : string → FetchResult;
  ListHtmlBundlesInfoService_htmlBundle : exn + list BundleInfo.t;
  SaveHtmlBundleService_htmlBundle : SaveRequest → exn + string;
  EnumRenderTemplateDataTemplateEngine : string → option string;
}.

(** The refs of [useBundleHandling], the session it is bound to, and the
    browser's local storage. *)
Record State := mkState {
  renderTemplateData : RenderTemplateDataViewModel;
  currentBundle : option BundleInfo.t;
  dirty : bool;
  bundleError : option string;
  bundleFileInputModel : option ArchiveBytes;
  localStorage : gmap string string;
}.

Definition set_renderTemplateData (x : RenderTemplateDataViewModel) (st : State) :=
  mkState x (currentBundle st) (dirty st) (bundleError st)
    (bundleFileInputModel st) (localStorage st).
Definition set_currentBundle (x : option BundleInfo.t) (st : State) :=
  mkState (renderTemplateData st) x (dirty st) (bundleError st)
    (bundleFileInputModel st) (localStorage st).
Definition set_dirty (x : bool) (st : State) :=
  mkState (renderTemplateData st) (currentBundle st) x (bundleError st)
    (bundleFileInputModel st) (localStorage st).
Definition set_bundleError (x : option string) (st : State) :=
  mkState (renderTemplateData st) (currentBundle st) (dirty st) x
    (bundleFileInputModel st) (localStorage st).
Definition set_bundleFileInputModel (x : option ArchiveBytes) (st : State) :=
  mkState (renderTemplateData st) (currentBundle st) (dirty st) (bundleError st)
    x (localStorage st).
Definition set_localStorage (x : gmap string string) (st : State) :=
  mkState (renderTemplateData st) (currentBundle st) (dirty st) (bundleError st)
    (bundleFileInputModel st) x.

(* ===================================================================== *)
(** ** Code that mutates an object and may throw *)
(* ===================================================================== *)

(** A computation on a mutable object of type [S]: it ends with a value
    or with an exception, and in both cases with the object as the
    assignments made so far left it. *)
Definition M (S A : Type) : Type := S → (exn + A) * S.

#[global] Instance M_ret {S} : MRet (M S) := λ A a s, (inr a, s).
#[global] Instance M_bind {S} : MBind (M S) := λ A B f m s,
  match m s with
  | (inr a, s') => f a s'
  | (inl e, s') => (inl e, s')
  end.

Definition throw {S A} (e : exn) : M S A := λ s, (inl e, s).
Definition assign {S} (f : S → S) : M S unit := λ s, (inr (), f s).
Definition of_result {S A} (r : exn + A) : M S A := λ s, (r, s).
Definition when {S} (b : bool) (m : M S unit) : M S unit :=
  if b then m else mret ().

(** [JSON.parse(text)], throwing. *)
Definition JSON_parse_throw `{JsonApi} {S} (text : string) : M S json :=
  match JSON_parse text with
  | Some v => mret v
  | None => throw SyntaxError
  end.

Fixpoint for_each {S A} (l : list A) (body : A → M S unit) : M S unit :=
  match l with
  | [] => mret ()
  | a :: l' => body a;; for_each l' body
  end.

(* ===================================================================== *)
(** ** [packBundle] *)
(* ===================================================================== *)

(** The statements of [packBundle] on the [zip] object it fills. *)
Definition packBundle_fill `{JsonApi}
    (data : RenderTemplateDataViewModel) (includedFiles : IncludedFiles.t)
    : M JsZip.t unit :=
  when (IncludedFiles.index includedFiles)
    (assign (JsZip.file "index.html" (default EmptyString (htmlTemplate data))));;
  when (IncludedFiles.header includedFiles && truthy (headerHtmlTemplate data))
    (assign (JsZip.file "header.html" (default EmptyString (headerHtmlTemplate data))));;
  when (IncludedFiles.footer includedFiles && truthy (footerHtmlTemplate data))
    (assign (JsZip.file "footer.html" (default EmptyString (footerHtmlTemplate data))));;
  when (IncludedFiles.options includedFiles)
    (assign (JsZip.file "options.json" (JSON_stringify (JObj (options data)))));;
  when (IncludedFiles.exampleModel includedFiles)
    (parsed ← JSON_parse_throw (modelStr data);
     assign (JsZip.file "example-model.json" (JSON_stringify parsed)));;
  when (IncludedFiles.assets includedFiles)
    (for_each (assets data) (λ a,
       assign (JsZip.file ("assets/" +:+ Asset.name a) (Asset.blob a)))).

Definition packBundle `{JsonApi}
    (data : RenderTemplateDataViewModel) (includedFiles : IncludedFiles.t)
    : exn + ArchiveBytes :=
  match packBundle_fill data includedFiles JsZip.empty with
  | (inr _, zip) => inr (JsZip_generateAsync zip)
  | (inl e, _) => inl e
  end.

(* ===================================================================== *)
(** ** [useBundleHandling] *)
(* ===================================================================== *)

(** [s.substring(n)] *)
Fixpoint substring_from (n : nat) (s : string) : string :=
  match n, s with
  | O, _ => s
  | S n, String _ s' => substring_from n s'
  | S _, EmptyString => EmptyString
  end.

(** The loop of [loadBundle] over [zip.files] that collects the assets. *)
Fixpoint loadBundle_assets (entries : JsZip.t) : list Asset.t :=
  let assetFolderPath := BundleAssetsFolder +:+ "/" in
  match entries with
  | [] => []
  | (fKey, content) :: entries' =>
      if String.prefix assetFolderPath fKey && negb (bool_decide (fKey = assetFolderPath))
      then Asset.mk (substring_from (String.length assetFolderPath) fKey) content
             :: loadBundle_assets entries'
      else loadBundle_assets entries'
  end.

(** [loadBundle(bundleBufferSrc, target)]; the computation runs on
    [target], which it mutates and returns. *)
Definition loadBundle `{JsonApi} `{RenderDataBase}
    (bundleBufferSrc : ArchiveBytes) : M RenderTemplateDataViewModel unit :=
  zip ← of_result (JsZip_loadAsync bundleBufferSrc);
  let indexStr := JsZip.get "index.html" zip in
  let headerStr := JsZip.get "header.html" zip in
  let footerStr := JsZip.get "footer.html" zip in
  let optionsStr := JsZip.get "options.json" zip in
  let exampleModelStr := default "{}" (JsZip.get "example-model.json" zip) in
  let assets := loadBundle_assets zip in
  when (truthy indexStr) (assign (set_htmlTemplate indexStr));;
  when (truthy headerStr) (assign (set_headerHtmlTemplate headerStr));;
  when (truthy footerStr) (assign (set_footerHtmlTemplate footerStr));;
  when (truthy optionsStr)
    (parsed ← JSON_parse_throw (default EmptyString optionsStr);
     assign (set_options (spread getBaseOptions (own_props parsed))));;
  when (truthy (Some exampleModelStr))
    (model ← JSON_parse_throw exampleModelStr;
     assign (set_model model);;
     assign (set_modelStr (JSON_stringify_indent2 model)));;
  when (bool_decide (0 < length assets)%nat) (assign (set_assets assets)).

(** [loadBundle(bundleBufferSrc)], on the default target. *)
Definition loadBundle_default `{JsonApi} `{RenderDataBase}
    (bundleBufferSrc : ArchiveBytes) : (exn + unit) * RenderTemplateDataViewModel :=
  loadBundle bundleBufferSrc getBaseRenderData.

(** The argument [only] of [downloadBundle]. *)
Inductive DownloadOnly :=
| documentWithoutHeaderAndFooter | onlyBody | onlyHeader | onlyFooter
| onlyOptions | onlyAssets.

Definition downloadBundle_includedFiles (only : option DownloadOnly) : IncludedFiles.t :=
  match only with
  | Some documentWithoutHeaderAndFooter =>
      IncludedFiles.mk true false false true true false
  | Some onlyBody => IncludedFiles.mk true false false false false false
  | Some onlyHeader => IncludedFiles.mk false true false false false false
  | Some onlyFooter => IncludedFiles.mk false false true false false false
  | Some onlyOptions => IncludedFiles.mk false false false true false false
  | Some onlyAssets => IncludedFiles.mk false false false false true false
  | None => includedFilesAll    (* [undefined]: the default of [packBundle] *)
  end.

(** [downloadBundle(only)]: the file handed to [FileSaver.saveAs] and its
    name, or what [packBundle] threw. No ref is assigned. *)
Definition downloadBundle `{JsonApi} (only : option DownloadOnly) (st : State)
    : (exn + ArchiveBytes * string) * State :=
  match packBundle (renderTemplateData st) (downloadBundle_includedFiles only) with
  | inr zip => (inr (zip, "pdf-turtle-bundle.zip"), st)
  | inl e => (inl e, st)
  end.

Definition loadBundlesInfo `{Server} (st : State) : list BundleInfo.t * State :=
  match ListHtmlBundlesInfoService_htmlBundle with
  | inr items => (items, st)
  | inl e =>
      ([], set_bundleError (Some ("Error loading bundles info: " +:+ exn_toString e)) st)
  end.

(* ===================================================================== *)
(** ** The session behind its reactive proxy *)
(* ===================================================================== *)

(** The composable receives the session as a reactive object and
    registers a watcher on it (lines 217-219). An assignment to a
    property of the session goes through the proxy, which queues the
    watcher when the value assigned is not the one in place; the queued
    watcher runs once the running code has reached an [await] that
    suspends it, or its end.

    The session as the proxy holds it: the object, and whether the
    watcher is queued. *)
Definition Proxy : Type := RenderTemplateDataViewModel * bool.

(** [hasChanged(value, oldValue)] on strings, [undefined], numbers and
    booleans: they are compared by value. *)
Definition hasChanged {A} `{EqDecision A} (oldValue value : A) : bool :=
  negb (bool_decide (oldValue = value)).

(** [hasChanged] for an object or an array that the assigning code has
    just created: it is never the one in place. *)
Definition hasChanged_new {A} (oldValue value : A) : bool := true.

(** [hasChanged] for a value that [JSON.parse] has just returned: an
    object or an array is new, anything else is compared by value (the
    numbers being the integers of [json]). *)
Definition hasChanged_parsed (oldValue value : json) : bool :=
  match value, oldValue with
  | JNull, JNull => false
  | JBool b, JBool b' => hasChanged b' b
  | JNum n, JNum n' => hasChanged n' n
  | JStr s, JStr s' => hasChanged s' s
  | _, _ => true
  end.

(** [target.key = value] through the proxy. *)
Definition proxy_set {A} (changed : A → A → bool)
    (get : RenderTemplateDataViewModel → A)
    (set : A → RenderTemplateDataViewModel → RenderTemplateDataViewModel)
    (value : A) : M Proxy unit :=
  λ '(raw, queued), (inr (), (set value raw, queued || changed (get raw) value)).

(** The assignments that the composable makes to the session. The
    options and the assets it assigns are an object and an array it has
    just built, the example model a value [JSON.parse] has just
    returned. *)
Definition assign_htmlTemplate := proxy_set hasChanged htmlTemplate set_htmlTemplate.
Definition assign_headerHtmlTemplate :=
  proxy_set hasChanged headerHtmlTemplate set_headerHtmlTemplate.
Definition assign_footerHtmlTemplate :=
  proxy_set hasChanged footerHtmlTemplate set_footerHtmlTemplate.
Definition assign_options := proxy_set hasChanged_new options set_options.
Definition assign_model := proxy_set hasChanged_parsed model set_model.
Definition assign_modelStr := proxy_set hasChanged modelStr set_modelStr.
Definition assign_assets := proxy_set hasChanged_new assets set_assets.
Definition assign_templateEngine := proxy_set hasChanged templateEngine set_templateEngine.

(** [loadBundle(bundleBufferSrc, reactiveRenderTemplateDataViewModel)]:
    the statements of [loadBundle], with the proxy as their target. *)
Definition loadBundle_reactive `{JsonApi} `{RenderDataBase}
    (bundleBufferSrc : ArchiveBytes) : M Proxy unit :=
  zip ← of_result (JsZip_loadAsync bundleBufferSrc);
  let indexStr := JsZip.get "index.html" zip in
  let headerStr := JsZip.get "header.html" zip in
  let footerStr := JsZip.get "footer.html" zip in
  let optionsStr := JsZip.get "options.json" zip in
  let exampleModelStr := default "{}" (JsZip.get "example-model.json" zip) in
  let assets := loadBundle_assets zip in
  when (truthy indexStr) (assign_htmlTemplate indexStr);;
  when (truthy headerStr) (assign_headerHtmlTemplate headerStr);;
  when (truthy footerStr) (assign_footerHtmlTemplate footerStr);;
  when (truthy optionsStr)
    (parsed ← JSON_parse_throw (default EmptyString optionsStr);
     assign_options (spread getBaseOptions (own_props parsed)));;
  when (truthy (Some exampleModelStr))
    (model ← JSON_parse_throw exampleModelStr;
     assign_model model;;
     assign_modelStr (JSON_stringify_indent2 model));;
  when (bool_decide (0 < length assets)%nat) (assign_assets assets).

(** The watcher of the session (lines 217-219): [dirty.value = true]. *)
Definition watch_renderTemplateData (st : State) : State := set_dirty true st.

(** The point where the running code is suspended or ends: the watcher
    runs if a write has queued it. *)
Definition flush_watch (queued : bool) (st : State) : State :=
  if queued then watch_renderTemplateData st else st.

(** The [catch] of [getBundle]. *)
Definition getBundle_catch (e : exn) (st : State) : State :=
  set_bundleError (Some ("Error loading bundle: " +:+ exn_toString e)) st.

Definition getBundle `{JsonApi} `{RenderDataBase} `{Server} (id : string) (st : State) : State :=
  match fetch (serverBaseUrl +:+ "/api/html-bundle/" +:+ id) with
  | FetchRejected e => getBundle_catch e st
  | FetchResponse false statusText _ =>
      set_bundleError (Some ("Error loading bundle: " +:+ statusText)) st
  | FetchResponse true _ (inl e) => getBundle_catch e st
  | FetchResponse true _ (inr data) =>
      match form_bundle data with
      | None => getBundle_catch (TypeError "bundle is null") st
      | Some bundle =>
          (* [await loadBundle(...)]: the watcher queued by the writes of
             [loadBundle] runs before [getBundle] goes on *)
          match loadBundle_reactive bundle (renderTemplateData st, false) with
          | (inl e, (target, queued)) =>
              getBundle_catch e (flush_watch queued (set_renderTemplateData target st))
          | (inr _, (target, queued)) =>
              let st := flush_watch queued (set_renderTemplateData target st) in
              let engine := form_templateEngine data in
              (* lines 166-169 run without a break: the watcher that the
                 write of [templateEngine] queues runs after them *)
              let '(_, (target, queued)) :=
                assign_templateEngine
                  (EnumRenderTemplateDataTemplateEngine engine) (target, false) in
              let st := set_renderTemplateData target st in
              let st := set_currentBundle (Some (BundleInfo.mk id (form_name data))) st in
              let st := set_dirty false st in
              flush_watch queued st
          end
      end
  end.

Definition storeBundle `{JsonApi} `{Server} (name : string) (st : State) : string * State :=
  let catch e := (EmptyString,
                  set_bundleError (Some ("Error saving bundle: " +:+ exn_toString e)) st) in
  match packBundle (renderTemplateData st) includedFilesAll with
  | inl e => catch e
  | inr bundle =>
      let request :=
        {| save_bundle := bundle;
           save_name := name;
           save_id := default EmptyString (BundleInfo.id <$> currentBundle st);
           save_templateEngine := templateEngine (renderTemplateData st) |} in
      match SaveHtmlBundleService_htmlBundle request with
      | inl e => catch e
      | inr res_id =>
          (res_id,
           set_dirty false (set_currentBundle (Some (BundleInfo.mk res_id name)) st))
      end
  end.

Definition cleanLocalStorageBundle (st : State) : State :=
  set_localStorage (delete "currentBundle" (localStorage st)) st.

(** The watcher of [bundleFileInputModel], run with the new value [b] of
    the ref: the import of a local archive file. An exception of
    [loadBundle] ends the callback where it is thrown. *)
Definition watch_bundleFileInputModel `{JsonApi} `{RenderDataBase}
    (b : option ArchiveBytes) (st : State) : (exn + unit) * State :=
  let st := set_bundleFileInputModel b st in
  match b with
  | Some bytes =>
      match loadBundle_reactive bytes (renderTemplateData st, false) with
      | (inl e, (target, queued)) =>
          (inl e, flush_watch queued (set_renderTemplateData target st))
      | (inr _, (target, queued)) =>
          let st := flush_watch queued (set_renderTemplateData target st) in
          let st := set_currentBundle None st in
          let st := cleanLocalStorageBundle st in
          (inr (), set_bundleFileInputModel None st)
      end
  | None => (inr (), set_bundleFileInputModel None st)
  end.

(** [window.onbeforeunload]: the state, and the confirmation text when
    the event is prevented. *)
Definition onbeforeunload (st : State) : State * option string :=
  let st :=
    match currentBundle st with
    | Some info =>
        if truthy (Some (BundleInfo.id info))
        then set_localStorage (<["currentBundle" := BundleInfo.id info]> (localStorage st)) st
        else st
    | None => st
    end in
  (st, if dirty st
       then Some "there are unsaved data, are you sure you want to leave?"
       else None).

(** [useBundleHandling(session)], with the local storage as it finds it:
    the refs at their initial values, and the resume of the saved bundle. *)
Definition useBundleHandling `{JsonApi} `{RenderDataBase} `{Server}
    (reactiveRenderTemplateDataViewModel : RenderTemplateDataViewModel)
    (storage : gmap string string) : State :=
  let st := mkState reactiveRenderTemplateDataViewModel None false None None storage in
  let savedBundleId := storage !! "currentBundle" in
  if truthy savedBundleId
  then getBundle (default EmptyString savedBundleId) st
  else st.

(* ===================================================================== *)
(** ** The page that uses the composable: [Playground.vue] *)
(* ===================================================================== *)

(** [Object.assign(renderTemplateData, getBaseRenderData(empty))]: the
    session after the properties of the base data are copied onto it
    through the proxy, and whether one of these writes has queued the
    watcher of the session. The base data are not part of the
    development. *)
Class BaseDataAssign := {
  assign_base_data : bool → RenderTemplateDataViewModel → Proxy;
}.

Module Playground.

Record BundleDialog := mkDialog {
  title : string;
  show : bool;
  bundles : list BundleInfo.t;
  saving : bool;
  bundleName : string;
}.

(** The refs of the composable and the dialog of the page. *)
Record t := mk {
  handling : State;
  bundleDialog : BundleDialog;
}.

Definition loadEmptyData `{BaseDataAssign} (p : t) : t :=
  let st := handling p in
  let '(data, queued) := assign_base_data true (renderTemplateData st) in
  let st := set_renderTemplateData data st in
  let st := set_currentBundle None st in
  mk (flush_watch queued st) (bundleDialog p).

Definition loadSampleData `{BaseDataAssign} (p : t) : t :=
  let st := handling p in
  let '(data, queued) := assign_base_data false (renderTemplateData st) in
  let st := set_renderTemplateData data st in
  let st := set_currentBundle None st in
  let st := cleanLocalStorageBundle st in
  mk (flush_watch queued st) (bundleDialog p).

Definition openLoadBundleDialog `{Server} (p : t) : t :=
  let '(items, st) := loadBundlesInfo (handling p) in
  mk st {| title := "Load bundle"; show := true; bundles := items;
           saving := false; bundleName := bundleName (bundleDialog p) |}.

(** [loadBundle(bundleId)] of the page. *)
Definition loadBundle `{JsonApi} `{RenderDataBase} `{Server} (bundleId : string) (p : t) : t :=
  let d := bundleDialog p in
  mk (getBundle bundleId (handling p))
     {| title := title d; show := false; bundles := bundles d;
        saving := saving d; bundleName := bundleName d |}.

Definition openSaveBundleDialog (p : t) : t :=
  let d := bundleDialog p in
  mk (handling p)
     {| title := "Save bundle"; show := true; bundles := bundles d;
        saving := true; bundleName := bundleName d |}.

Definition saveBundle `{JsonApi} `{Server} (rename : bool) (p : t) : t :=
  let name :=
    match currentBundle (handling p) with
    | Some info => BundleInfo.name info
    | None => bundleName (bundleDialog p)
    end in
  if negb (truthy (Some name)) || rename
  then openSaveBundleDialog p
  else mk (storeBundle name (handling p)).2 (bundleDialog p).

End Playground.

(* ===================================================================== *)
(** ** Sessions, archives and servers to run the operations on *)
(* ===================================================================== *)

Module Sample.
Import MiniJson.

Definition margins : json :=
  JObj (<["top" := JNum 25]> (<["right" := JNum 25]>
       (<["bottom" := JNum 20]> (<["left" := JNum 25]> ∅)))).

(** Modelled from the spec: the baseline options record of
    [getBaseOptions], with the page format, the orientation and the
    margins the spec names; the values are sample values. *)
Definition baseOptions : jsobject :=
  <["pageFormat" := JStr "A4"]> (<["landscape" := JBool false]>
  (<["margins" := margins]> ∅)).

(** The session of the end-to-end scenario of the spec. *)
Definition scenario : RenderTemplateDataViewModel :=
  {| htmlTemplate := Some "<p>hi</p>";
     headerHtmlTemplate := None;
     footerHtmlTemplate := None;
     options := <["pageFormat" := JStr "A4"]> (<["landscape" := JBool false]> ∅);
     model := JObj ∅;
     modelStr := "{}";
     assets := [];
     templateEngine := Some "golang" |}.

Definition logo : Asset.t := Asset.mk "logo.png" "PNG-bytes".

(** A session with every member kind set. *)
Definition session : RenderTemplateDataViewModel :=
  {| htmlTemplate := Some "<h1>{{ .title }}</h1>";
     headerHtmlTemplate := Some "<header>page</header>";
     footerHtmlTemplate := Some "<footer>end</footer>";
     options := <["pageFormat" := JStr "A3"]> baseOptions;
     model := JObj (<["title" := JStr "Report"]> ∅);
     modelStr := "{" +:+ q "title" +:+ ": " +:+ q "Report" +:+ "}";
     assets := [logo];
     templateEngine := Some "golang" |}.

(** The same, with options that leave [margins] out. *)
Definition session_two_options : RenderTemplateDataViewModel :=
  set_options (options scenario) session.

#[export] Instance base : RenderDataBase :=
  {| getBaseOptions := baseOptions; getBaseRenderData := scenario |}.

Definition header_only : JsZip.t := [("header.html", "<header>new</header>")].

(** A body and an example model that is no JSON text. *)
Definition body_and_bad_model : JsZip.t :=
  [("index.html", "<p>new</p>"); ("example-model.json", "{")].

Definition empty_model : JsZip.t := [("example-model.json", EmptyString)].
Definition empty_options : JsZip.t := [("options.json", EmptyString)].
Definition bad_options : JsZip.t := [("options.json", "{")].
Definition landscape_only : JsZip.t :=
  [("options.json", "{" +:+ q "landscape" +:+ ":true}")].
Definition empty_body : JsZip.t :=
  [("index.html", EmptyString); ("header.html", EmptyString);
   ("footer.html", EmptyString)].

Definition state (data : RenderTemplateDataViewModel) (d : bool) : State :=
  {| renderTemplateData := data;
     currentBundle := Some (BundleInfo.mk "b-1" "report");
     dirty := d;
     bundleError := None;
     bundleFileInputModel := None;
     localStorage := <["currentBundle" := "b-1"]> ∅ |}.

Definition engines (tag : string) : option string :=
  if decide (tag = "golang") then Some "golang"
  else if decide (tag = "handlebars") then Some "handlebars"
  else if decide (tag = "django") then Some "django"
  else None.

(** A server that answers every fetch with the archive [z], and every
    save with the id [saved]. *)
Definition server (z : JsZip.t) (saved : exn + string) : Server :=
  {| serverBaseUrl := "http://localhost:8000";
     fetch := λ _, FetchResponse true "OK"
                (inr (mkForm (Some (ZipBytes z)) "fetched" "handlebars"));
     ListHtmlBundlesInfoService_htmlBundle := inr [];
     SaveHtmlBundleService_htmlBundle := λ _, saved;
     EnumRenderTemplateDataTemplateEngine := engines |}.

End Sample.

(** More sample data: a page, archives with entries of other kinds. *)
Module PageSample.

(** Base data that replace every field of the session; their options
    are a new object. *)
Definition assign : BaseDataAssign :=
  {| assign_base_data := λ empty _,
       (if empty
        then mkData (Some EmptyString) None None Sample.baseOptions (JObj ∅) "{}" []
               (Some "golang")
        else Sample.scenario,
        true) |}.

Definition dialog (name : string) : Playground.BundleDialog :=
  {| Playground.title := "Save bundle"; Playground.show := false;
     Playground.bundles := []; Playground.saving := false;
     Playground.bundleName := name |}.

(** A linked page, whose storage holds the resume pointer [b-1]. *)
Definition linked : Playground.t :=
  Playground.mk (Sample.state Sample.session false) (dialog "typed").

Definition with_assets : JsZip.t :=
  [("index.html", "<p>body</p>"); ("assets/", EmptyString);
   ("assets/logo.png", "PNG-bytes"); ("assets/fonts/", EmptyString);
   ("assets/fonts/a.ttf", "TTF-bytes")].

Definition twice : list Asset.t :=
  [Asset.mk "logo.png" "old"; Asset.mk "font.ttf" "TTF"; Asset.mk "logo.png" "new"].

End PageSample.

(* ===================================================================== *)
(** ** Notions used in the statements *)
(* ===================================================================== *)

(** A well-formed asset name: not empty and without a slash. *)
Definition plain_name (name : string) : Prop :=
  name ≠ EmptyString ∧ JsZip.has_slash name = false.

(** The assets of a session have well-formed names, each name once. *)
Definition plain_assets (l : list Asset.t) : Prop :=
  Forall plain_name (Asset.name <$> l) ∧ NoDup (Asset.name <$> l).

(** The archive entry of an asset, and the statement of [packBundle]
    that writes it. *)
Definition asset_entry (a : Asset.t) : string * string :=
  ("assets/" +:+ Asset.name a, Asset.blob a).

Definition write_asset (z : JsZip.t) (a : Asset.t) : JsZip.t :=
  JsZip.file ("assets/" +:+ Asset.name a) (Asset.blob a) z.

(** [loadBundle] gets past a JSON member: it does not parse the text
    (absent or empty), or the text parses. *)
Definition member_decodes `{JsonApi} (text : option string) : bool :=
  negb (truthy text)
  || match JSON_parse (default EmptyString text) with Some _ => true | None => false end.

Definition options_text (z : JsZip.t) : option string := JsZip.get "options.json" z.

(** The text [loadBundle] takes for the example model: the member, or
    ["{}"] when there is none. *)
Definition model_text (z : JsZip.t) : string :=
  default "{}" (JsZip.get "example-model.json" z).

(** [loadBundle] after the archive is opened, in the order of its
    statements: the three text members, then the options, then the
    example model, then the assets. *)
Definition load_texts (z : JsZip.t) (target : RenderTemplateDataViewModel) :=
  let indexStr := JsZip.get "index.html" z in
  let headerStr := JsZip.get "header.html" z in
  let footerStr := JsZip.get "footer.html" z in
  let t1 := if truthy indexStr then set_htmlTemplate indexStr target else target in
  let t2 := if truthy headerStr then set_headerHtmlTemplate headerStr t1 else t1 in
  if truthy footerStr then set_footerHtmlTemplate footerStr t2 else t2.

Definition load_assets (z : JsZip.t) (t : RenderTemplateDataViewModel) :=
  if bool_decide (0 < length (loadBundle_assets z))%nat
  then set_assets (loadBundle_assets z) t else t.

Definition load_model `{JsonApi} (z : JsZip.t) (t : RenderTemplateDataViewModel)
    : (exn + unit) * RenderTemplateDataViewModel :=
  if truthy (Some (model_text z)) then
    match JSON_parse (model_text z) with
    | Some m =>
        (inr (), load_assets z (set_modelStr (JSON_stringify_indent2 m) (set_model m t)))
    | None => (inl SyntaxError, t)
    end
  else (inr (), load_assets z t).

Definition load_options `{JsonApi} `{RenderDataBase}
    (z : JsZip.t) (t : RenderTemplateDataViewModel)
    : (exn + unit) * RenderTemplateDataViewModel :=
  if truthy (options_text z) then
    match JSON_parse (default EmptyString (options_text z)) with
    | Some v => load_model z (set_options (spread getBaseOptions (own_props v)) t)
    | None => (inl SyntaxError, t)
    end
  else load_model z t.

(** [packBundle] in the order of its statements: the members other than
    the example model, then the assets. *)
Definition fill_members `{JsonApi}
    (data : RenderTemplateDataViewModel) (inc : IncludedFiles.t) (z : JsZip.t) : JsZip.t :=
  let z1 :=
    if IncludedFiles.index inc
    then JsZip.file "index.html" (default EmptyString (htmlTemplate data)) z else z in
  let z2 :=
    if IncludedFiles.header inc && truthy (headerHtmlTemplate data)
    then JsZip.file "header.html" (default EmptyString (headerHtmlTemplate data)) z1
    else z1 in
  let z3 :=
    if IncludedFiles.footer inc && truthy (footerHtmlTemplate data)
    then JsZip.file "footer.html" (default EmptyString (footerHtmlTemplate data)) z2
    else z2 in
  if IncludedFiles.options inc
  then JsZip.file "options.json" (JSON_stringify (JObj (options data))) z3 else z3.

Definition fill_assets
    (data : RenderTemplateDataViewModel) (inc : IncludedFiles.t) (z : JsZip.t) : JsZip.t :=
  if IncludedFiles.assets inc then foldl write_asset z (assets data) else z.

(** The names of the members that [packBundle] is to write, assets
    apart. *)
Definition selected_names
    (data : RenderTemplateDataViewModel) (inc : IncludedFiles.t) : list string :=
  (if IncludedFiles.index inc then ["index.html"] else [])
  ++ (if IncludedFiles.header inc && truthy (headerHtmlTemplate data)
      then ["header.html"] else [])
  ++ (if IncludedFiles.footer inc && truthy (footerHtmlTemplate data)
      then ["footer.html"] else [])
  ++ (if IncludedFiles.options inc then ["options.json"] else [])
  ++ (if IncludedFiles.exampleModel inc then ["example-model.json"] else []).

(** The session invariant on the example model: the string is a JSON
    text and the value is what it parses to. *)
Definition model_in_sync `{JsonApi} (d : RenderTemplateDataViewModel) : Prop :=
  JSON_parse (modelStr d) = Some (model d).

(** Two sessions with the same example model, value and string. *)
Definition same_model (d d' : RenderTemplateDataViewModel) : Prop :=
  model d = model d' ∧ modelStr d = modelStr d'.

(** The platform reads back what it pretty-prints for the value of the
    JSON text [text]. *)
Definition prints_back `{JsonApi} (text : string) : Prop :=
  ∀ m, JSON_parse text = Some m → JSON_parse (JSON_stringify_indent2 m) = Some m.

(** The composable has left the session, the current bundle, the dirty
    flag and the local storage as they were. *)
Definition untouched (st st' : State) : Prop :=
  renderTemplateData st' = renderTemplateData st ∧
  currentBundle st' = currentBundle st ∧
  dirty st' = dirty st ∧
  localStorage st' = localStorage st.

(** The writes that [loadBundle] makes to the reactive session and that
    queue its watcher, in the order of the statements: a text member in
    use that is not the text in place; the options, a new object; the
    example model, a new object or array or another value than the one
    in place, or a string that is not the one in place; the assets, a
    new array. The options are written when their text parses, the
    example model when in addition its own text is in use and parses,
    the assets when [loadBundle] has got past both. *)
Definition observed_writes `{JsonApi} (z : JsZip.t) (target : RenderTemplateDataViewModel)
    : bool :=
  let indexStr := JsZip.get "index.html" z in
  let headerStr := JsZip.get "header.html" z in
  let footerStr := JsZip.get "footer.html" z in
  (truthy indexStr && hasChanged (htmlTemplate target) indexStr)
  || (truthy headerStr && hasChanged (headerHtmlTemplate target) headerStr)
  || (truthy footerStr && hasChanged (footerHtmlTemplate target) footerStr)
  || (truthy (options_text z)
      && bool_decide (is_Some (JSON_parse (default EmptyString (options_text z)))))
  || (member_decodes (options_text z) && truthy (Some (model_text z))
      && match JSON_parse (model_text z) with
         | Some m =>
             hasChanged_parsed (model target) m
             || hasChanged (modelStr target) (JSON_stringify_indent2 m)
         | None => false
         end)
  || (member_decodes (options_text z) && member_decodes (Some (model_text z))
      && bool_decide (0 < length (loadBundle_assets z))%nat).

(** Whether [loadBundle] on the reactive session has queued the watcher
    when it returns or throws. *)
Definition loadBundle_notifies `{JsonApi} `{RenderDataBase}
    (bytes : ArchiveBytes) (target : RenderTemplateDataViewModel) : bool :=
  (loadBundle_reactive bytes (target, false)).2.2.

(** The member names of the five kinds that are not assets. *)
Definition member_names : list string :=
  ["index.html"; "header.html"; "footer.html"; "options.json"; "example-model.json"].

(* ===================================================================== *)
(** ** Facts about the file table of JSZip *)
(* ===================================================================== *)

Section JsZipFacts.
Implicit Types (z : JsZip.t) (k name data : string).

Lemma get_set_eq name data z : JsZip.get name (JsZip.set name data z) = Some data.
Proof.
  induction z as [|[k v] z IH]; simpl.
  - by rewrite decide_True.
  - destruct (decide (k = name)) as [->|Hne]; simpl.
    + by rewrite decide_True.
    + by rewrite decide_False.
Qed.

Lemma get_set_ne k name data z :
  k ≠ name → JsZip.get k (JsZip.set name data z) = JsZip.get k z.
Proof.
  intros Hne. induction z as [|[k' v] z IH]; simpl.
  - rewrite decide_False; [done|congruence].
  - destruct (decide (k' = name)) as [->|Hne']; simpl.
    + rewrite !decide_False; [done|congruence..].
    + destruct (decide (k' = k)); [done|apply IH].
Qed.

Lemma set_absent name data z :
  JsZip.get name z = None → JsZip.set name data z = z ++ [(name, data)].
Proof.
  induction z as [|[k v] z IH]; simpl; [done|].
  destruct (decide (k = name)); [done|]. intros Hz. by rewrite IH.
Qed.

Lemma ends_with_slash_app (s : string) (c : ascii) :
  JsZip.ends_with_slash (s +:+ String c EmptyString) = bool_decide (c = "/"%char).
Proof.
  induction s as [|a s IH]; [done|].
  simpl. destruct s; simpl in *; [done|]. apply IH.
Qed.

Lemma ends_with_slash_force path :
  JsZip.ends_with_slash (JsZip.forceTrailingSlash path) = true.
Proof.
  unfold JsZip.forceTrailingSlash.
  destruct (JsZip.ends_with_slash path) eqn:E; [done|].
  apply ends_with_slash_app.
Qed.

(** Writing an entry leaves the entries of other names alone, folders
    apart. *)
Lemma get_fileAdd_ne n k name data (dir : bool) z :
  JsZip.ends_with_slash k = false →
  k ≠ (if dir then JsZip.forceTrailingSlash name else name) →
  JsZip.get k (JsZip.fileAdd n name data dir z) = JsZip.get k z.
Proof.
  intros Hk. revert name data dir z.
  induction n as [|n IH]; intros name data dir z Hne; simpl.
  - by rewrite get_set_ne.
  - rewrite get_set_ne by done.
    destruct (JsZip.parentFolder _) as [|c parent]; [done|].
    destruct (JsZip.get (JsZip.forceTrailingSlash _) z); [done|].
    apply IH. simpl. intros ->.
    by rewrite ends_with_slash_force in Hk.
Qed.

Lemma get_file_ne k name data z :
  JsZip.ends_with_slash k = false → k ≠ name →
  JsZip.get k (JsZip.file name data z) = JsZip.get k z.
Proof. intros. by apply get_fileAdd_ne. Qed.

Lemma get_file_eq name data z :
  JsZip.get name (JsZip.file name data z) = Some data.
Proof. unfold JsZip.file. destruct (String.length name); apply get_set_eq. Qed.

Lemma get_set_is_Some k name data z :
  is_Some (JsZip.get k z) → is_Some (JsZip.get k (JsZip.set name data z)).
Proof.
  destruct (decide (k = name)) as [->|].
  - rewrite get_set_eq. eauto.
  - by rewrite get_set_ne.
Qed.

Lemma get_fileAdd_is_Some n k name data (dir : bool) z :
  is_Some (JsZip.get k z) → is_Some (JsZip.get k (JsZip.fileAdd n name data dir z)).
Proof.
  revert name data dir z. induction n as [|n IH]; intros name data dir z Hs; simpl.
  - by apply get_set_is_Some.
  - apply get_set_is_Some.
    destruct (JsZip.parentFolder _); [done|].
    destruct (JsZip.get (JsZip.forceTrailingSlash _) z); [done|].
    by apply IH.
Qed.
End JsZipFacts.

Section AssetFacts.
Implicit Types (z : JsZip.t) (k name data : string).

Lemma string_app_nil (s : string) : EmptyString +:+ s = s.
Proof. done. Qed.

Lemma string_app_cons (c : ascii) (s s' : string) :
  String c s +:+ s' = String c (s +:+ s').
Proof. done. Qed.

Lemma get_app k z z' :
  JsZip.get k (z ++ z') =
    match JsZip.get k z with Some v => Some v | None => JsZip.get k z' end.
Proof.
  induction z as [|[k' v] z IH]; simpl; [done|].
  by destruct (decide (k' = k)).
Qed.

Lemma file_top name data z :
  JsZip.parentFolder name = EmptyString →
  JsZip.file name data z = JsZip.set name data z.
Proof.
  intros Hp. unfold JsZip.file.
  destruct (String.length name); simpl; [done|]. by rewrite Hp.
Qed.

Lemma lastIndexOf_no_slash i name :
  JsZip.has_slash name = false → JsZip.lastIndexOf_slash i name = None.
Proof.
  revert i. induction name as [|c name IH]; intros i; simpl; [done|].
  intros [Hc Hs]%orb_false_elim. by rewrite IH, Hc.
Qed.

Lemma ends_with_slash_has_slash name :
  JsZip.ends_with_slash name = true → JsZip.has_slash name = true.
Proof.
  induction name as [|c name IH]; simpl; [done|].
  destruct name as [|c' name]; [intros ->; done|].
  intros H. rewrite IH by done. apply orb_true_r.
Qed.

Lemma ends_with_slash_cons (c : ascii) name :
  name ≠ EmptyString →
  JsZip.ends_with_slash (String c name) = JsZip.ends_with_slash name.
Proof. by destruct name. Qed.

Lemma asset_path_no_trailing_slash name :
  plain_name name → JsZip.ends_with_slash ("assets/" +:+ name) = false.
Proof.
  intros [Hne Hs]. simpl.
  destruct name as [|c name]; [done|].
  destruct (JsZip.ends_with_slash (String c name)) eqn:E; [|done].
  apply ends_with_slash_has_slash in E. congruence.
Qed.

Lemma parentFolder_asset name :
  plain_name name → JsZip.parentFolder ("assets/" +:+ name) = "assets".
Proof.
  intros Hn. unfold JsZip.parentFolder.
  rewrite asset_path_no_trailing_slash by done.
  destruct Hn as [_ Hs]. simpl.
  by rewrite (lastIndexOf_no_slash _ _ Hs).
Qed.

Lemma fileAdd_assets_folder n z :
  JsZip.fileAdd n "assets/" EmptyString true z = JsZip.set "assets/" EmptyString z.
Proof. by destruct n. Qed.

Lemma file_asset name data z :
  plain_name name →
  JsZip.file ("assets/" +:+ name) data z =
    JsZip.set ("assets/" +:+ name) data
      (match JsZip.get "assets/" z with
       | Some _ => z
       | None => JsZip.set "assets/" EmptyString z
       end).
Proof.
  intros Hn. unfold JsZip.file.
  change (String.length ("assets/" +:+ name)) with (S (6 + String.length name)).
  cbn [JsZip.fileAdd]. rewrite parentFolder_asset by done.
  change (JsZip.forceTrailingSlash "assets") with "assets/".
  destruct (JsZip.get "assets/" z); [done|].
  by rewrite fileAdd_assets_folder.
Qed.
End AssetFacts.

Section PackAssets.
Implicit Types (z : JsZip.t) (a : Asset.t) (l : list Asset.t).

Lemma for_each_assign {S A} (xs : list A) (f : S → A → S) (s : S) :
  for_each xs (λ x, assign (λ s, f s x)) s = (inr (), foldl f s xs).
Proof. revert s. induction xs as [|x xs IH]; intros s; [done|]. apply IH. Qed.

Lemma asset_path_inj (n1 n2 : string) :
  "assets/" +:+ n1 = "assets/" +:+ n2 → n1 = n2.
Proof. simpl. by intros [=]. Qed.

Lemma write_assets_in_folder l z :
  is_Some (JsZip.get "assets/" z) →
  plain_assets l →
  (∀ a, a ∈ l → JsZip.get ("assets/" +:+ Asset.name a) z = None) →
  foldl write_asset z l = z ++ (asset_entry <$> l).
Proof.
  revert z. induction l as [|a l IH]; intros z Hfolder [Hplain Hdup] Hfresh.
  - simpl. by rewrite app_nil_r.
  - simpl in Hplain, Hdup. apply Forall_cons in Hplain as [Ha Hplain].
    apply NoDup_cons in Hdup as [Hnotin Hdup].
    assert (write_asset z a = z ++ [asset_entry a]) as Hstep.
    { unfold write_asset. rewrite file_asset by done.
      destruct Hfolder as [v ->]. apply set_absent, Hfresh. left. }
    cbn [foldl]. rewrite Hstep, IH; [by rewrite <- app_assoc|..].
    + rewrite get_app. destruct Hfolder as [v ->]. eauto.
    + done.
    + intros b Hb. rewrite get_app, Hfresh by (by right). simpl.
      rewrite decide_False; [done|].
      intros Heq%asset_path_inj. apply Hnotin. rewrite Heq.
      by apply list_elem_of_fmap_2.
Qed.

Lemma write_assets_new_folder a l z :
  JsZip.get "assets/" z = None →
  plain_assets (a :: l) →
  (∀ b, b ∈ a :: l → JsZip.get ("assets/" +:+ Asset.name b) z = None) →
  foldl write_asset z (a :: l) =
    z ++ ("assets/", EmptyString) :: (asset_entry <$> a :: l).
Proof.
  intros Hfolder Hplain Hfresh.
  assert (plain_name (Asset.name a)) as Ha.
  { destruct Hplain as [Hp _]. by apply Forall_cons in Hp as [? _]. }
  assert (∀ b, b ∈ a :: l →
    JsZip.get ("assets/" +:+ Asset.name b) (z ++ [("assets/", EmptyString)]) = None)
    as Hfresh'.
  { intros b Hb. rewrite get_app, Hfresh by done. simpl.
    rewrite decide_False; [done|].
    destruct Hplain as [Hp _]. rewrite Forall_forall in Hp.
    destruct (Hp (Asset.name b)) as [Hne _]; [by apply list_elem_of_fmap_2|].
    intros [= Hb']. by rewrite string_app_nil in Hb'. }
  transitivity (foldl write_asset (z ++ [("assets/", EmptyString)]) (a :: l)).
  - cbn [foldl]. f_equal. unfold write_asset.
    rewrite !file_asset by done. rewrite Hfolder.
    rewrite (set_absent "assets/") by done.
    by rewrite get_app, Hfolder.
  - rewrite write_assets_in_folder; [by rewrite <- app_assoc|..|done|done].
    rewrite get_app, Hfolder. simpl. eauto.
Qed.

Lemma loadBundle_assets_app z z' :
  loadBundle_assets (z ++ z') = loadBundle_assets z ++ loadBundle_assets z'.
Proof.
  induction z as [|[k v] z IH]; [done|]. simpl.
  destruct (_ && _); simpl; by rewrite IH.
Qed.

Lemma loadBundle_assets_entries l :
  Forall plain_name (Asset.name <$> l) →
  loadBundle_assets (asset_entry <$> l) = l.
Proof.
  induction l as [|[n b] l IH]; intros Hp; [done|].
  simpl in Hp. apply Forall_cons in Hp as [[Hne _] Hp].
  cbn [fmap list_fmap asset_entry loadBundle_assets Asset.name Asset.blob].
  change (BundleAssetsFolder +:+ "/") with "assets/".
  replace (String.prefix "assets/" ("assets/" +:+ n)) with true
    by (simpl; by destruct n).
  rewrite bool_decide_false.
  - simpl. f_equal. by apply IH.
  - simpl. intros [=]. done.
Qed.
End PackAssets.

Ltac unfold_M :=
  unfold JSON_parse_throw, when in *;
  unfold mbind, M_bind, mret, M_ret, assign, throw, of_result in *.

Section RemoveFacts.
Implicit Types (z : JsZip.t) (k name : string).

Lemma get_remove_eq name z : JsZip.get name (JsZip.remove name z) = None.
Proof.
  induction z as [|[k v] z IH]; simpl; [done|].
  destruct (decide (k = name)); simpl; [done|]. by rewrite decide_False.
Qed.

Lemma get_remove_ne k name z :
  k ≠ name → JsZip.get k (JsZip.remove name z) = JsZip.get k z.
Proof.
  intros Hne. induction z as [|[k' v] z IH]; simpl; [done|].
  destruct (decide (k' = name)) as [->|]; simpl.
  - by rewrite decide_False.
  - by rewrite IH.
Qed.

Lemma loadBundle_assets_remove name z :
  String.prefix "assets/" name = false →
  loadBundle_assets (JsZip.remove name z) = loadBundle_assets z.
Proof.
  intros Hp. induction z as [|[k v] z IH]; simpl; [done|].
  change (BundleAssetsFolder +:+ "/") with "assets/" in *.
  destruct (decide (k = name)) as [->|]; simpl.
  - by rewrite Hp.
  - by rewrite IH.
Qed.
End RemoveFacts.

Section LoadBundle.
Context `{JsonApi} `{RenderDataBase}.
Implicit Types (z : JsZip.t) (target : RenderTemplateDataViewModel).

Lemma loadBundle_zip z target :
  loadBundle (ZipBytes z) target = load_options z (load_texts z target).
Proof.
  unfold loadBundle, load_options, load_model, load_assets, load_texts,
    options_text, model_text.
  unfold_M. cbn beta iota zeta delta [JsZip_loadAsync].
  destruct (truthy (JsZip.get "index.html" z));
    destruct (truthy (JsZip.get "header.html" z));
    destruct (truthy (JsZip.get "footer.html" z));
    destruct (truthy (JsZip.get "options.json" z)); cbn beta iota zeta.
  all: try destruct (JSON_parse (default EmptyString (JsZip.get "options.json" z)));
    cbn beta iota.
  all: destruct (truthy (Some (default "{}" (JsZip.get "example-model.json" z))));
    try destruct (JSON_parse (default "{}" (JsZip.get "example-model.json" z)));
    cbn beta iota; try done.
  all: by destruct (bool_decide (0 < length (loadBundle_assets z))%nat).
Qed.

(** [loadBundle] on the reactive session is [loadBundle] on the session,
    and queues the watcher by the writes that the proxy observes. *)
Lemma loadBundle_reactive_zip z target (queued : bool) :
  loadBundle_reactive (ZipBytes z) (target, queued) =
    ((loadBundle (ZipBytes z) target).1,
     ((loadBundle (ZipBytes z) target).2, queued || observed_writes z target)).
Proof.
  unfold loadBundle_reactive, loadBundle, observed_writes, member_decodes,
    options_text, model_text, assign_htmlTemplate, assign_headerHtmlTemplate,
    assign_footerHtmlTemplate, assign_options, assign_model, assign_modelStr,
    assign_assets, proxy_set.
  unfold_M. cbn beta iota zeta delta [JsZip_loadAsync default from_option id].
  destruct (truthy (JsZip.get "index.html" z));
    destruct (truthy (JsZip.get "header.html" z));
    destruct (truthy (JsZip.get "footer.html" z));
    destruct (truthy (JsZip.get "options.json" z)); cbn beta iota zeta.
  all: try destruct (JSON_parse (default EmptyString (JsZip.get "options.json" z)));
    cbn beta iota.
  all: destruct (truthy (Some (default "{}" (JsZip.get "example-model.json" z))));
    try destruct (JSON_parse (default "{}" (JsZip.get "example-model.json" z)));
    cbn beta iota.
  all: destruct (bool_decide (0 < length (loadBundle_assets z))%nat); simpl.
  all: rewrite ?bool_decide_true by eauto; rewrite ?bool_decide_false by (by intros [? [=]]).
  all: f_equal; f_equal.
  all: rewrite ?orb_false_r, ?orb_true_r, ?orb_assoc; try done.
Qed.

Lemma loadBundle_reactive_other raw target (queued : bool) :
  loadBundle_reactive (OtherBytes raw) (target, queued) =
    ((loadBundle (OtherBytes raw) target).1,
     ((loadBundle (OtherBytes raw) target).2, queued)).
Proof. done. Qed.

Lemma loadBundle_notifies_zip z target :
  loadBundle_notifies (ZipBytes z) target = observed_writes z target.
Proof. unfold loadBundle_notifies. by rewrite loadBundle_reactive_zip. Qed.

Lemma loadBundle_notifies_other raw target :
  loadBundle_notifies (OtherBytes raw) target = false.
Proof. done. Qed.

(** The same for any archive bytes. *)
Lemma loadBundle_reactive_eq (bytes : ArchiveBytes) target :
  loadBundle_reactive bytes (target, false) =
    ((loadBundle bytes target).1,
     ((loadBundle bytes target).2, loadBundle_notifies bytes target)).
Proof.
  destruct bytes as [z|raw].
  - by rewrite loadBundle_notifies_zip, loadBundle_reactive_zip.
  - by rewrite loadBundle_reactive_other.
Qed.
End LoadBundle.

Section LoadBundleFields.
Context `{JsonApi} `{RenderDataBase}.
Implicit Types (z : JsZip.t) (target t : RenderTemplateDataViewModel).

(** What the later stages leave alone. *)
Lemma load_assets_frame z t :
  let t' := load_assets z t in
  htmlTemplate t' = htmlTemplate t ∧ headerHtmlTemplate t' = headerHtmlTemplate t ∧
  footerHtmlTemplate t' = footerHtmlTemplate t ∧ options t' = options t ∧
  model t' = model t ∧ modelStr t' = modelStr t ∧
  templateEngine t' = templateEngine t.
Proof. unfold load_assets. by case_bool_decide. Qed.

Lemma load_model_frame z t :
  let t' := (load_model z t).2 in
  htmlTemplate t' = htmlTemplate t ∧ headerHtmlTemplate t' = headerHtmlTemplate t ∧
  footerHtmlTemplate t' = footerHtmlTemplate t ∧ options t' = options t ∧
  templateEngine t' = templateEngine t.
Proof.
  unfold load_model.
  destruct (truthy _); [destruct (JSON_parse _)|]; simpl; try done.
  - destruct (load_assets_frame z
      (set_modelStr (JSON_stringify_indent2 j) (set_model j t)))
      as (-> & -> & -> & -> & _ & _ & ->). done.
  - destruct (load_assets_frame z t) as (-> & -> & -> & -> & _ & _ & ->). done.
Qed.

Lemma load_options_frame z t :
  let t' := (load_options z t).2 in
  htmlTemplate t' = htmlTemplate t ∧ headerHtmlTemplate t' = headerHtmlTemplate t ∧
  footerHtmlTemplate t' = footerHtmlTemplate t ∧
  templateEngine t' = templateEngine t.
Proof.
  unfold load_options.
  destruct (truthy _); [destruct (JSON_parse _)|]; simpl; try done.
  - destruct (load_model_frame z
      (set_options (spread getBaseOptions (own_props j)) t))
      as (-> & -> & -> & _ & ->). done.
  - destruct (load_model_frame z t) as (-> & -> & -> & _ & ->). done.
Qed.

Lemma load_texts_frame z target :
  let t' := load_texts z target in
  options t' = options target ∧ model t' = model target ∧
  modelStr t' = modelStr target ∧ assets t' = assets target ∧
  templateEngine t' = templateEngine target.
Proof. unfold load_texts. by repeat case_match. Qed.

Lemma loadBundle_htmlTemplate z target :
  htmlTemplate (loadBundle (ZipBytes z) target).2 =
    if truthy (JsZip.get "index.html" z)
    then JsZip.get "index.html" z else htmlTemplate target.
Proof.
  rewrite loadBundle_zip.
  destruct (load_options_frame z (load_texts z target)) as (-> & _).
  unfold load_texts. by repeat case_match.
Qed.

Lemma loadBundle_headerHtmlTemplate z target :
  headerHtmlTemplate (loadBundle (ZipBytes z) target).2 =
    if truthy (JsZip.get "header.html" z)
    then JsZip.get "header.html" z else headerHtmlTemplate target.
Proof.
  rewrite loadBundle_zip.
  destruct (load_options_frame z (load_texts z target)) as (_ & -> & _).
  unfold load_texts. by repeat case_match.
Qed.

Lemma loadBundle_footerHtmlTemplate z target :
  footerHtmlTemplate (loadBundle (ZipBytes z) target).2 =
    if truthy (JsZip.get "footer.html" z)
    then JsZip.get "footer.html" z else footerHtmlTemplate target.
Proof.
  rewrite loadBundle_zip.
  destruct (load_options_frame z (load_texts z target)) as (_ & _ & -> & _).
  unfold load_texts. by repeat case_match.
Qed.

Lemma loadBundle_templateEngine z target :
  templateEngine (loadBundle (ZipBytes z) target).2 = templateEngine target.
Proof.
  rewrite loadBundle_zip.
  destruct (load_options_frame z (load_texts z target)) as (_ & _ & _ & ->).
  by destruct (load_texts_frame z target) as (_ & _ & _ & _ & ->).
Qed.

Lemma loadBundle_options z target :
  options (loadBundle (ZipBytes z) target).2 =
    if truthy (options_text z) then
      match JSON_parse (default EmptyString (options_text z)) with
      | Some v => spread getBaseOptions (own_props v)
      | None => options target
      end
    else options target.
Proof.
  rewrite loadBundle_zip. unfold load_options.
  destruct (load_texts_frame z target) as (Ho & _).
  destruct (truthy _); [destruct (JSON_parse _) as [v|]|]; simpl; try done.
  - by destruct (load_model_frame z
      (set_options (spread getBaseOptions (own_props v)) (load_texts z target)))
      as (_ & _ & _ & -> & _).
  - by destruct (load_model_frame z (load_texts z target)) as (_ & _ & _ & -> & _).
Qed.

Lemma load_model_result z t :
  (load_model z t).1 =
    if member_decodes (Some (model_text z)) then inr () else inl SyntaxError.
Proof.
  unfold load_model, member_decodes.
  change (default EmptyString (Some (model_text z))) with (model_text z).
  destruct (truthy _); [destruct (JSON_parse _)|]; done.
Qed.

Lemma loadBundle_result z target :
  (loadBundle (ZipBytes z) target).1 =
    if member_decodes (options_text z) && member_decodes (Some (model_text z))
    then inr () else inl SyntaxError.
Proof.
  rewrite loadBundle_zip. unfold load_options, member_decodes at 1.
  destruct (truthy (options_text z)); [destruct (JSON_parse _)|]; simpl;
    try apply load_model_result; done.
Qed.

Lemma load_model_model z t :
  let t' := (load_model z t).2 in
  (model t', modelStr t') =
    if truthy (Some (model_text z)) then
      match JSON_parse (model_text z) with
      | Some m => (m, JSON_stringify_indent2 m)
      | None => (model t, modelStr t)
      end
    else (model t, modelStr t).
Proof.
  unfold load_model.
  destruct (truthy _); [destruct (JSON_parse _) as [m|]|]; simpl; try done.
  - by destruct (load_assets_frame z
      (set_modelStr (JSON_stringify_indent2 m) (set_model m t)))
      as (_ & _ & _ & _ & -> & -> & _).
  - by destruct (load_assets_frame z t) as (_ & _ & _ & _ & -> & -> & _).
Qed.

Lemma loadBundle_model z target :
  let target' := (loadBundle (ZipBytes z) target).2 in
  (model target', modelStr target') =
    if member_decodes (options_text z) && truthy (Some (model_text z)) then
      match JSON_parse (model_text z) with
      | Some m => (m, JSON_stringify_indent2 m)
      | None => (model target, modelStr target)
      end
    else (model target, modelStr target).
Proof.
  rewrite loadBundle_zip. unfold load_options, member_decodes.
  destruct (load_texts_frame z target) as (_ & Hm & Hs & _).
  destruct (truthy (options_text z)); [destruct (JSON_parse _)|]; simpl.
  - rewrite load_model_model. simpl. by rewrite Hm, Hs.
  - by rewrite Hm, Hs.
  - rewrite load_model_model. simpl. by rewrite Hm, Hs.
Qed.

Lemma load_model_assets z t :
  assets (load_model z t).2 =
    if member_decodes (Some (model_text z))
       && bool_decide (0 < length (loadBundle_assets z))%nat
    then loadBundle_assets z else assets t.
Proof.
  unfold load_model, load_assets, member_decodes.
  change (default EmptyString (Some (model_text z))) with (model_text z).
  destruct (truthy _); [destruct (JSON_parse _)|]; simpl; try done;
    by case_bool_decide.
Qed.

Lemma loadBundle_assets_field z target :
  assets (loadBundle (ZipBytes z) target).2 =
    if member_decodes (options_text z) && member_decodes (Some (model_text z))
       && bool_decide (0 < length (loadBundle_assets z))%nat
    then loadBundle_assets z else assets target.
Proof.
  rewrite loadBundle_zip. unfold load_options, member_decodes at 1.
  destruct (load_texts_frame z target) as (_ & _ & _ & Ha & _).
  destruct (truthy (options_text z)); [destruct (JSON_parse _)|]; simpl;
    rewrite ?load_model_assets; simpl; by rewrite ?Ha.
Qed.
End LoadBundleFields.

(* ===================================================================== *)
(** ** Decoding an archive into a session: [loadBundle] *)
(* ===================================================================== *)

Section LoadBundleClaims.
Context `{JsonApi} `{RenderDataBase}.
Implicit Types (z : JsZip.t) (target : RenderTemplateDataViewModel).

Lemma truthy_empty : truthy (Some EmptyString) = false.
Proof. done. Qed.

Lemma truthy_nonempty (s : string) : s ≠ EmptyString → truthy (Some s) = true.
Proof. by destruct s. Qed.

(** C10. A text member ([index.html], [header.html], [footer.html])
    that is present with empty content leaves its field of the target
    as it was, and [loadBundle] does on this archive exactly what it
    does on the archive without the member; so no call of [loadBundle]
    makes the body, the header or the footer the empty string. *)
Theorem loadBundle_empty_text_member z target :
  (JsZip.get "index.html" z = Some EmptyString →
     htmlTemplate (loadBundle (ZipBytes z) target).2 = htmlTemplate target ∧
     loadBundle (ZipBytes z) target
       = loadBundle (ZipBytes (JsZip.remove "index.html" z)) target) ∧
  (JsZip.get "header.html" z = Some EmptyString →
     headerHtmlTemplate (loadBundle (ZipBytes z) target).2 = headerHtmlTemplate target ∧
     loadBundle (ZipBytes z) target
       = loadBundle (ZipBytes (JsZip.remove "header.html" z)) target) ∧
  (JsZip.get "footer.html" z = Some EmptyString →
     footerHtmlTemplate (loadBundle (ZipBytes z) target).2 = footerHtmlTemplate target ∧
     loadBundle (ZipBytes z) target
       = loadBundle (ZipBytes (JsZip.remove "footer.html" z)) target) ∧
  (∀ bytes,
     let target' := (loadBundle bytes target).2 in
     (htmlTemplate target' = Some EmptyString →
        htmlTemplate target = Some EmptyString) ∧
     (headerHtmlTemplate target' = Some EmptyString →
        headerHtmlTemplate target = Some EmptyString) ∧
     (footerHtmlTemplate target' = Some EmptyString →
        footerHtmlTemplate target = Some EmptyString)).
Proof.
  split_and!.
  - intros Hm. split.
    + by rewrite loadBundle_htmlTemplate, Hm.
    + rewrite !loadBundle_zip.
      unfold load_options, load_model, load_assets, load_texts,
        options_text, model_text.
      rewrite get_remove_eq, !get_remove_ne by done.
      rewrite loadBundle_assets_remove by done. by rewrite Hm.
  - intros Hm. split.
    + by rewrite loadBundle_headerHtmlTemplate, Hm.
    + rewrite !loadBundle_zip.
      unfold load_options, load_model, load_assets, load_texts,
        options_text, model_text.
      rewrite get_remove_eq, !get_remove_ne by done.
      rewrite loadBundle_assets_remove by done. by rewrite Hm.
  - intros Hm. split.
    + by rewrite loadBundle_footerHtmlTemplate, Hm.
    + rewrite !loadBundle_zip.
      unfold load_options, load_model, load_assets, load_texts,
        options_text, model_text.
      rewrite get_remove_eq, !get_remove_ne by done.
      rewrite loadBundle_assets_remove by done. by rewrite Hm.
  - intros [zip|raw]; [|done]. cbv zeta.
    rewrite loadBundle_htmlTemplate, loadBundle_headerHtmlTemplate,
      loadBundle_footerHtmlTemplate.
    split_and!.
    + destruct (truthy (JsZip.get "index.html" zip)) eqn:Ht; [|done].
      intros Hs. by rewrite Hs in Ht.
    + destruct (truthy (JsZip.get "header.html" zip)) eqn:Ht; [|done].
      intros Hs. by rewrite Hs in Ht.
    + destruct (truthy (JsZip.get "footer.html" zip)) eqn:Ht; [|done].
      intros Hs. by rewrite Hs in Ht.
Qed.

(** C1, as the code has it. On an archive that opens, [loadBundle]
    leaves the body, the header, the footer, the options and the assets
    of the target as they were when their member is absent, and never
    touches the template engine; it installs a text member that is
    present and not empty, and a text member that is present and empty
    changes nothing. It succeeds exactly when the JSON members it
    parses are JSON texts; then options that are present and not empty
    are decoded over the baseline, asset entries replace the assets, an
    example model that is present and not empty is installed, and one
    that is present and empty leaves the model as it was. In
    particular, on the archive whose only member is a header that is
    not empty, the header is installed and the body, the footer, the
    options and the assets are as they were. *)
Theorem loadBundle_frame z target :
  let r := loadBundle (ZipBytes z) target in
  (JsZip.get "index.html" z = None → htmlTemplate r.2 = htmlTemplate target) ∧
  (JsZip.get "header.html" z = None →
     headerHtmlTemplate r.2 = headerHtmlTemplate target) ∧
  (JsZip.get "footer.html" z = None →
     footerHtmlTemplate r.2 = footerHtmlTemplate target) ∧
  (JsZip.get "options.json" z = None → options r.2 = options target) ∧
  (loadBundle_assets z = [] → assets r.2 = assets target) ∧
  templateEngine r.2 = templateEngine target ∧
  (∀ s : string, JsZip.get "index.html" z = Some s →
     htmlTemplate r.2 = if bool_decide (s = EmptyString) then htmlTemplate target else Some s) ∧
  (∀ s : string, JsZip.get "header.html" z = Some s →
     headerHtmlTemplate r.2
       = if bool_decide (s = EmptyString) then headerHtmlTemplate target else Some s) ∧
  (∀ s : string, JsZip.get "footer.html" z = Some s →
     footerHtmlTemplate r.2
       = if bool_decide (s = EmptyString) then footerHtmlTemplate target else Some s) ∧
  (r.1 = inr () ↔
     member_decodes (options_text z) && member_decodes (Some (model_text z)) = true) ∧
  (r.1 = inr () →
     (∀ s : string, JsZip.get "options.json" z = Some s → s ≠ EmptyString →
        ∃ v, JSON_parse s = Some v ∧
             options r.2 = spread getBaseOptions (own_props v)) ∧
     (loadBundle_assets z ≠ [] → assets r.2 = loadBundle_assets z) ∧
     (∀ s : string, JsZip.get "example-model.json" z = Some s → s ≠ EmptyString →
        ∃ m, JSON_parse s = Some m ∧
             model r.2 = m ∧ modelStr r.2 = JSON_stringify_indent2 m) ∧
     (JsZip.get "example-model.json" z = Some EmptyString →
        model r.2 = model target ∧ modelStr r.2 = modelStr target)) ∧
  (∀ s : string, z = [("header.html", s)] → s ≠ EmptyString →
     headerHtmlTemplate r.2 = Some s ∧
     htmlTemplate r.2 = htmlTemplate target ∧
     footerHtmlTemplate r.2 = footerHtmlTemplate target ∧
     options r.2 = options target ∧
     assets r.2 = assets target).
Proof.
  cbv zeta.
  pose proof (loadBundle_model z target) as Hmodel. cbv zeta in Hmodel.
  rewrite loadBundle_htmlTemplate, loadBundle_headerHtmlTemplate,
    loadBundle_footerHtmlTemplate, loadBundle_options, loadBundle_assets_field,
    loadBundle_templateEngine, loadBundle_result.
  split_and!.
  - by intros ->.
  - by intros ->.
  - by intros ->.
  - unfold options_text. by intros ->.
  - intros ->. by rewrite andb_false_r.
  - done.
  - intros s ->. case_bool_decide as Hs; [by subst|by rewrite truthy_nonempty].
  - intros s ->. case_bool_decide as Hs; [by subst|by rewrite truthy_nonempty].
  - intros s ->. case_bool_decide as Hs; [by subst|by rewrite truthy_nonempty].
  - destruct (member_decodes (options_text z)
              && member_decodes (Some (model_text z))); by split.
  - destruct (member_decodes (options_text z)) eqn:Hopt; [|done].
    destruct (member_decodes (Some (model_text z))) eqn:Hmod; [|done].
    intros _. cbn [andb] in Hmodel |- *. split_and!.
    + intros s Hm Hs. unfold member_decodes, options_text in Hopt |- *.
      rewrite Hm in Hopt |- *. rewrite truthy_nonempty in Hopt |- * by done.
      simpl in Hopt |- *. destruct (JSON_parse s) as [v|]; [eauto|done].
    + intros Hne. rewrite bool_decide_true; [done|].
      destruct (loadBundle_assets z); [done|simpl; lia].
    + intros s Hm Hs.
      assert (model_text z = s) as Htext by (unfold model_text; by rewrite Hm).
      rewrite Htext in Hmod, Hmodel. unfold member_decodes in Hmod.
      change (default EmptyString (Some s)) with s in Hmod.
      rewrite truthy_nonempty in Hmod, Hmodel by done. simpl in Hmod.
      destruct (JSON_parse s) as [m|]; [|done].
      injection Hmodel as -> ->. eauto.
    + intros Hm.
      assert (model_text z = EmptyString) as Htext
        by (unfold model_text; by rewrite Hm).
      rewrite Htext in Hmodel. change (truthy (Some EmptyString)) with false in Hmodel.
      by injection Hmodel as -> ->.
  - intros s -> Hs.
    change (JsZip.get "header.html" [("header.html", s)]) with (Some s).
    rewrite truthy_nonempty by done.
    change (JsZip.get "index.html" [("header.html", s)]) with (@None string).
    change (JsZip.get "footer.html" [("header.html", s)]) with (@None string).
    change (options_text [("header.html", s)]) with (@None string).
    change (loadBundle_assets [("header.html", s)]) with (@nil Asset.t).
    by rewrite andb_false_r.
Qed.

(** C5, as the code has it. When [example-model.json] is present and
    is no JSON text, the model of the target and its string are after
    [loadBundle] what they were before; [loadBundle] throws the
    [SyntaxError] when the member is not empty. An empty member is not
    parsed: [loadBundle] does not fail on it. *)
Theorem loadBundle_malformed_model z target (s : string) :
  JsZip.get "example-model.json" z = Some s →
  JSON_parse s = None →
  let r := loadBundle (ZipBytes z) target in
  model r.2 = model target ∧ modelStr r.2 = modelStr target ∧
  (s ≠ EmptyString → r.1 = inl SyntaxError) ∧
  (s = EmptyString →
     r.1 = if member_decodes (options_text z) then inr () else inl SyntaxError).
Proof.
  intros Hm Hparse. cbv zeta.
  assert (model_text z = s) as Htext by (unfold model_text; by rewrite Hm).
  assert (member_decodes (Some s) = negb (truthy (Some s))) as Hdec.
  { unfold member_decodes.
    change (default EmptyString (Some s)) with s.
    rewrite Hparse. apply orb_false_r. }
  pose proof (loadBundle_model z target) as Hmodel. cbv zeta in Hmodel.
  rewrite Htext, Hparse in Hmodel.
  assert ((model (loadBundle (ZipBytes z) target).2,
           modelStr (loadBundle (ZipBytes z) target).2)
          = (model target, modelStr target)) as [= -> ->].
  { rewrite Hmodel. by case_match. }
  rewrite loadBundle_result, Htext, Hdec.
  split_and!; [done|done|..].
  - intros Hs. rewrite truthy_nonempty by done. by rewrite andb_false_r.
  - intros ->. simpl. by rewrite andb_true_r.
Qed.

(** C6, as the code has it. When [options.json] is present, not empty
    and a JSON text, [loadBundle] sets the options of the target to the
    baseline options overlaid with the properties of the parsed value:
    a key of the archive has the value of the archive, every other key
    has its baseline value. A member that is present and empty is
    skipped: the options stay as they were, and [loadBundle] goes on to
    the example model, which alone decides whether it succeeds. A
    member that is not empty and no JSON text makes [loadBundle] throw
    the [SyntaxError] with the options as they were. *)
Theorem loadBundle_options_overlay z target (s : string) :
  JsZip.get "options.json" z = Some s →
  let r := loadBundle (ZipBytes z) target in
  (∀ v, s ≠ EmptyString → JSON_parse s = Some v →
     options r.2 = spread getBaseOptions (own_props v) ∧
     (∀ k x, own_props v !! k = Some x → options r.2 !! k = Some x) ∧
     (∀ k, own_props v !! k = None → options r.2 !! k = getBaseOptions !! k)) ∧
  (s = EmptyString →
     options r.2 = options target ∧
     r.1 = if member_decodes (Some (model_text z)) then inr () else inl SyntaxError) ∧
  (s ≠ EmptyString → JSON_parse s = None →
     options r.2 = options target ∧ r.1 = inl SyntaxError).
Proof.
  intros Hm. cbv zeta.
  rewrite loadBundle_options, loadBundle_result.
  unfold options_text. rewrite Hm.
  change (default EmptyString (Some s)) with s.
  split_and!.
  - intros v Hs Hparse. rewrite truthy_nonempty by done. rewrite Hparse.
    split_and!; [done|..]; unfold spread.
    + intros k x Hk. by apply lookup_union_Some_l.
    + intros k Hk. by apply lookup_union_r.
  - by intros ->.
  - intros Hs Hparse. unfold member_decodes at 1.
    change (default EmptyString (Some s)) with s.
    rewrite truthy_nonempty by done. by rewrite Hparse.
Qed.
End LoadBundleClaims.

(* ===================================================================== *)
(** ** Encoding a session into an archive: [packBundle] *)
(* ===================================================================== *)

Section PackBundleFacts.
Context `{JsonApi}.
Implicit Types (z : JsZip.t) (data : RenderTemplateDataViewModel)
  (inc : IncludedFiles.t).

Lemma packBundle_fill_eq data inc z :
  packBundle_fill data inc z =
    let z4 := fill_members data inc z in
    if IncludedFiles.exampleModel inc then
      match JSON_parse (modelStr data) with
      | Some m =>
          (inr (), fill_assets data inc
                     (JsZip.file "example-model.json" (JSON_stringify m) z4))
      | None => (inl SyntaxError, z4)
      end
    else (inr (), fill_assets data inc z4).
Proof.
  unfold packBundle_fill, fill_members, fill_assets, write_asset.
  destruct inc as [i h f o a e]. cbn [IncludedFiles.index IncludedFiles.header
    IncludedFiles.footer IncludedFiles.options IncludedFiles.assets
    IncludedFiles.exampleModel].
  unfold_M.
  destruct i, (h && truthy (headerHtmlTemplate data)),
    (f && truthy (footerHtmlTemplate data)), o; cbn beta iota zeta.
  all: destruct e; try destruct (JSON_parse (modelStr data)); cbn beta iota; try done.
  all: destruct a; try done; apply for_each_assign.
Qed.

Lemma file_member (name data : string) z :
  name ∈ member_names → JsZip.file name data z = JsZip.set name data z.
Proof.
  intros Hin. apply file_top.
  apply list_elem_of_In in Hin.
  destruct Hin as [<-|[<-|[<-|[<-|[<-|[]]]]]]; by vm_compute.
Qed.

Lemma get_write_assets (k : string) (l : list Asset.t) z :
  JsZip.ends_with_slash k = false →
  (∀ name : string, k ≠ "assets/" +:+ name) →
  JsZip.get k (foldl write_asset z l) = JsZip.get k z.
Proof.
  intros Hk Hne. revert z. induction l as [|a l IH]; intros z; [done|].
  cbn [foldl]. rewrite IH. unfold write_asset. by apply get_file_ne.
Qed.

Lemma get_write_assets_member (k : string) (l : list Asset.t) z :
  k ∈ member_names → JsZip.get k (foldl write_asset z l) = JsZip.get k z.
Proof.
  intros Hin. apply list_elem_of_In in Hin.
  destruct Hin as [<-|[<-|[<-|[<-|[<-|[]]]]]];
    (apply get_write_assets; [by vm_compute|by intros name [=]]).
Qed.

Lemma written_asset_present (a : Asset.t) (l : list Asset.t) z :
  a ∈ l ∨ is_Some (JsZip.get ("assets/" +:+ Asset.name a) z) →
  is_Some (JsZip.get ("assets/" +:+ Asset.name a) (foldl write_asset z l)).
Proof.
  revert z. induction l as [|b l IH]; intros z Hin.
  - destruct Hin as [Hin|Hs]; [by apply elem_of_nil in Hin|done].
  - cbn [foldl]. apply IH.
    destruct Hin as [[->|Hin]%elem_of_cons|Hs]; [right|by left|right].
    + unfold write_asset. rewrite get_file_eq. eauto.
    + unfold write_asset, JsZip.file. by apply get_fileAdd_is_Some.
Qed.
End PackBundleFacts.

Section PackBundleClaims.
Context `{JsonApi}.
Implicit Types (z : JsZip.t) (data : RenderTemplateDataViewModel)
  (inc : IncludedFiles.t).

(** The file table [packBundle] arrives at. *)
Lemma packBundle_eq data inc :
  packBundle data inc =
    if IncludedFiles.exampleModel inc then
      match JSON_parse (modelStr data) with
      | Some m =>
          inr (ZipBytes (fill_assets data inc
                 (JsZip.file "example-model.json" (JSON_stringify m)
                    (fill_members data inc JsZip.empty))))
      | None => inl SyntaxError
      end
    else inr (ZipBytes (fill_assets data inc (fill_members data inc JsZip.empty))).
Proof.
  unfold packBundle. rewrite packBundle_fill_eq. cbv zeta.
  destruct (IncludedFiles.exampleModel inc); [|done].
  by destruct (JSON_parse (modelStr data)).
Qed.

Ltac in_members := unfold member_names; repeat constructor.

Lemma get_fill_members data inc :
  let z := fill_members data inc JsZip.empty in
  JsZip.get "index.html" z =
    (if IncludedFiles.index inc
     then Some (default EmptyString (htmlTemplate data)) else None) ∧
  JsZip.get "header.html" z =
    (if IncludedFiles.header inc && truthy (headerHtmlTemplate data)
     then headerHtmlTemplate data else None) ∧
  JsZip.get "footer.html" z =
    (if IncludedFiles.footer inc && truthy (footerHtmlTemplate data)
     then footerHtmlTemplate data else None) ∧
  JsZip.get "options.json" z =
    (if IncludedFiles.options inc
     then Some (JSON_stringify (JObj (options data))) else None) ∧
  JsZip.get "example-model.json" z = None ∧
  JsZip.keys z =
    (if IncludedFiles.index inc then ["index.html"] else [])
    ++ (if IncludedFiles.header inc && truthy (headerHtmlTemplate data)
        then ["header.html"] else [])
    ++ (if IncludedFiles.footer inc && truthy (footerHtmlTemplate data)
        then ["footer.html"] else [])
    ++ (if IncludedFiles.options inc then ["options.json"] else []).
Proof.
  unfold fill_members. cbv zeta.
  assert (∀ o : option string, truthy o = true → Some (default EmptyString o) = o)
    as Hdef by (by intros [[|]|]).
  destruct (IncludedFiles.index inc);
    destruct (IncludedFiles.header inc && truthy (headerHtmlTemplate data)) eqn:Hh;
    destruct (IncludedFiles.footer inc && truthy (footerHtmlTemplate data)) eqn:Hf;
    destruct (IncludedFiles.options inc).
  all: try (apply andb_prop in Hh as [_ Hh]; apply Hdef in Hh).
  all: try (apply andb_prop in Hf as [_ Hf]; apply Hdef in Hf).
  all: rewrite ?file_member by in_members.
  all: split_and!; try done.
Qed.
Lemma keys_fill_assets_off data inc z :
  IncludedFiles.assets inc = false ∨ assets data = [] →
  fill_assets data inc z = z.
Proof.
  unfold fill_assets. intros [->| ->]; [done|]. by destruct (IncludedFiles.assets inc).
Qed.

(** What [packBundle] returns, member by member. *)
Lemma packBundle_archive data inc :
  (packBundle data inc = inl SyntaxError ↔
     IncludedFiles.exampleModel inc = true ∧ JSON_parse (modelStr data) = None) ∧
  (IncludedFiles.exampleModel inc = false ∨ is_Some (JSON_parse (modelStr data)) →
     ∃ z, packBundle data inc = inr (ZipBytes z)) ∧
  (∀ z, packBundle data inc = inr (ZipBytes z) →
     JsZip.get "index.html" z =
       (if IncludedFiles.index inc
        then Some (default EmptyString (htmlTemplate data)) else None) ∧
     JsZip.get "header.html" z =
       (if IncludedFiles.header inc && truthy (headerHtmlTemplate data)
        then headerHtmlTemplate data else None) ∧
     JsZip.get "footer.html" z =
       (if IncludedFiles.footer inc && truthy (footerHtmlTemplate data)
        then footerHtmlTemplate data else None) ∧
     JsZip.get "options.json" z =
       (if IncludedFiles.options inc
        then Some (JSON_stringify (JObj (options data))) else None) ∧
     JsZip.get "example-model.json" z =
       (if IncludedFiles.exampleModel inc
        then JSON_stringify <$> JSON_parse (modelStr data) else None) ∧
     (IncludedFiles.assets inc = true →
        ∀ a, a ∈ assets data →
          is_Some (JsZip.get ("assets/" +:+ Asset.name a) z)) ∧
     (IncludedFiles.assets inc = false ∨ assets data = [] →
        JsZip.keys z = selected_names data inc)).
Proof.
  rewrite packBundle_eq. split_and!.
  - destruct (IncludedFiles.exampleModel inc); [|split; [done|by intros [? _]]].
    destruct (JSON_parse (modelStr data)); split; try done. by intros [_ ?].
  - intros [->|[m ->]]; [eauto|].
    destruct (IncludedFiles.exampleModel inc); eauto.
  - intros z Hz.
    destruct (get_fill_members data inc) as (Hi & Hh & Hf & Ho & Hm & Hkeys).
    set (z4 := fill_members data inc JsZip.empty) in *.
    assert (∃ z5, z = fill_assets data inc z5 ∧
              JsZip.get "index.html" z5 = JsZip.get "index.html" z4 ∧
              JsZip.get "header.html" z5 = JsZip.get "header.html" z4 ∧
              JsZip.get "footer.html" z5 = JsZip.get "footer.html" z4 ∧
              JsZip.get "options.json" z5 = JsZip.get "options.json" z4 ∧
              JsZip.get "example-model.json" z5 =
                (if IncludedFiles.exampleModel inc
                 then JSON_stringify <$> JSON_parse (modelStr data) else None) ∧
              JsZip.keys z5 = selected_names data inc)
      as (z5 & -> & Hi5 & Hh5 & Hf5 & Ho5 & Hm5 & Hk5).
    { unfold selected_names.
      destruct (IncludedFiles.exampleModel inc).
      - destruct (JSON_parse (modelStr data)) as [m|]; [|done].
        injection Hz as <-. eexists. split; [done|].
        rewrite file_member by in_members.
        rewrite !get_set_ne by done. rewrite get_set_eq.
        split_and!; try done.
        rewrite set_absent by done. unfold JsZip.keys in *.
        rewrite fmap_app, Hkeys. by rewrite <- !app_assoc.
      - injection Hz as <-. eexists. split; [done|].
        split_and!; try done. rewrite Hkeys. by rewrite app_nil_r. }
    assert (∀ k, k ∈ member_names →
              JsZip.get k (fill_assets data inc z5) = JsZip.get k z5) as Hframe.
    { intros k Hk. unfold fill_assets.
      destruct (IncludedFiles.assets inc); [|done].
      by apply get_write_assets_member. }
    rewrite !Hframe by in_members.
    rewrite Hi5, Hh5, Hf5, Ho5, Hm5, Hi, Hh, Hf, Ho.
    split_and!; try done.
    + intros Ha a Hin. unfold fill_assets. rewrite Ha.
      apply written_asset_present. by left.
    + intros Hoff. by rewrite keys_fill_assets_off.
Qed.

(** C7. [packBundle] fails only on an example model that is selected and
    is no JSON text; the archive it returns otherwise has [index.html]
    when the body is selected, also for an empty body; [header.html] and
    [footer.html] when they are selected and not empty; [options.json]
    and [example-model.json] when they are selected; and the entry of
    every asset when the assets are selected, none when they are not. The
    session of the end-to-end scenario, packed with the full selection,
    gives the three entries [index.html], [options.json] and
    [example-model.json] and no other. *)
Theorem packBundle_members data inc :
  ((packBundle data inc = inl SyntaxError ↔
     IncludedFiles.exampleModel inc = true ∧ JSON_parse (modelStr data) = None) ∧
  (IncludedFiles.exampleModel inc = false ∨ is_Some (JSON_parse (modelStr data)) →
     ∃ z, packBundle data inc = inr (ZipBytes z)) ∧
  (∀ z, packBundle data inc = inr (ZipBytes z) →
     JsZip.get "index.html" z =
       (if IncludedFiles.index inc
        then Some (default EmptyString (htmlTemplate data)) else None) ∧
     JsZip.get "header.html" z =
       (if IncludedFiles.header inc && truthy (headerHtmlTemplate data)
        then headerHtmlTemplate data else None) ∧
     JsZip.get "footer.html" z =
       (if IncludedFiles.footer inc && truthy (footerHtmlTemplate data)
        then footerHtmlTemplate data else None) ∧
     JsZip.get "options.json" z =
       (if IncludedFiles.options inc
        then Some (JSON_stringify (JObj (options data))) else None) ∧
     JsZip.get "example-model.json" z =
       (if IncludedFiles.exampleModel inc
        then JSON_stringify <$> JSON_parse (modelStr data) else None) ∧
     (IncludedFiles.assets inc = true →
        ∀ a, a ∈ assets data →
          is_Some (JsZip.get ("assets/" +:+ Asset.name a) z)) ∧
     (IncludedFiles.assets inc = false ∨ assets data = [] →
        JsZip.keys z = selected_names data inc))) ∧
  (∀ m, JSON_parse "{}" = Some m →
     packBundle Sample.scenario includedFilesAll =
       inr (ZipBytes [("index.html", "<p>hi</p>");
                      ("options.json", JSON_stringify (JObj (options Sample.scenario)));
                      ("example-model.json", JSON_stringify m)])).
Proof.
  split; [apply packBundle_archive|].
  intros m Hm. rewrite packBundle_eq.
  change (modelStr Sample.scenario) with "{}". rewrite Hm.
  by vm_compute.
Qed.

End PackBundleClaims.

Section RoundTrip.
Context `{JsonApi} `{RenderDataBase}.
Implicit Types (z : JsZip.t) (s target : RenderTemplateDataViewModel).

Lemma get_not_key (k : string) z : k ∉ JsZip.keys z → JsZip.get k z = None.
Proof.
  induction z as [|[k' v] z IH]; simpl; [done|].
  intros Hk. apply not_elem_of_cons in Hk as [Hne Hk].
  rewrite decide_False by done. by apply IH.
Qed.

Lemma loadBundle_assets_none z :
  Forall (λ k, String.prefix "assets/" k = false) (JsZip.keys z) →
  loadBundle_assets z = [].
Proof.
  induction z as [|[k v] z IH]; simpl; [done|].
  intros [Hk Hz]%Forall_cons.
  change (BundleAssetsFolder +:+ "/") with "assets/". rewrite Hk. by apply IH.
Qed.

Lemma spread_same_iff (base o : jsobject) : spread base o = o ↔ dom base ⊆ dom o.
Proof.
  unfold spread. split.
  - intros Heq k Hk. rewrite <- Heq. rewrite dom_union. set_solver.
  - intros Hsub. apply map_eq. intros k.
    destruct (o !! k) as [x|] eqn:Ho.
    + by apply lookup_union_Some_l.
    + rewrite lookup_union_r by done.
      apply not_elem_of_dom. intros Hk%Hsub. by apply not_elem_of_dom in Ho.
Qed.

(** C3, as the code has it. Take a session with a body, a header and a
    footer that are not empty, with a model string that is a JSON text
    and with at least one asset, the assets having well-formed names,
    each name once; and let the platform read back the two JSON texts
    that [packBundle] prints, which are not empty. Then [packBundle] with
    the full selection succeeds, and [loadBundle] of its archive into any
    target, the default one included, succeeds with the body, the header,
    the footer and the assets of the session, with the parsed model of
    the session, and with the options of the session laid over the
    baseline options: these are the options of the session exactly when
    the session has a value for every baseline key. *)
Theorem packBundle_loadBundle_roundtrip s target (m : json) :
  truthy (htmlTemplate s) = true →
  truthy (headerHtmlTemplate s) = true →
  truthy (footerHtmlTemplate s) = true →
  JSON_parse (modelStr s) = Some m →
  JSON_stringify m ≠ EmptyString →
  JSON_parse (JSON_stringify m) = Some m →
  JSON_stringify (JObj (options s)) ≠ EmptyString →
  JSON_parse (JSON_stringify (JObj (options s))) = Some (JObj (options s)) →
  assets s ≠ [] →
  plain_assets (assets s) →
  ∃ bytes,
    packBundle s includedFilesAll = inr bytes ∧
    loadBundle bytes target =
      (inr (),
       {| htmlTemplate := htmlTemplate s;
          headerHtmlTemplate := headerHtmlTemplate s;
          footerHtmlTemplate := footerHtmlTemplate s;
          options := spread getBaseOptions (options s);
          model := m;
          modelStr := JSON_stringify_indent2 m;
          assets := assets s;
          templateEngine := templateEngine target |}) ∧
    (spread getBaseOptions (options s) = options s ↔
       dom getBaseOptions ⊆ dom (options s)).
Proof.
  intros Hbody Hheader Hfooter Hm Hmtext Hmback Hotext Hoback Hassets Hplain.
  rewrite packBundle_eq. cbn [includedFilesAll IncludedFiles.exampleModel].
  rewrite Hm. eexists. split; [done|]. split; [|apply spread_same_iff].
  destruct (get_fill_members s includedFilesAll) as (Hi & Hh & Hf & Ho & Hnone & Hkeys).
  cbn [includedFilesAll IncludedFiles.index IncludedFiles.header IncludedFiles.footer
       IncludedFiles.options andb] in Hi, Hh, Hf, Ho, Hkeys.
  rewrite Hheader in Hh, Hkeys. rewrite Hfooter in Hf, Hkeys.
  set (z4 := fill_members s includedFilesAll JsZip.empty) in *.
  rewrite file_member by (unfold member_names; repeat constructor).
  set (z5 := JsZip.set "example-model.json" (JSON_stringify m) z4).
  assert (JsZip.keys z5 = member_names) as Hkeys5.
  { unfold z5. rewrite set_absent by done. unfold JsZip.keys in *.
    by rewrite fmap_app, Hkeys. }
  assert (JsZip.get "index.html" z5 = Some (default EmptyString (htmlTemplate s))
          ∧ JsZip.get "header.html" z5 = headerHtmlTemplate s
          ∧ JsZip.get "footer.html" z5 = footerHtmlTemplate s
          ∧ JsZip.get "options.json" z5 = Some (JSON_stringify (JObj (options s)))
          ∧ JsZip.get "example-model.json" z5 = Some (JSON_stringify m))
    as (Hi5 & Hh5 & Hf5 & Ho5 & Hm5).
  { unfold z5. rewrite !get_set_ne by done. by rewrite get_set_eq. }
  assert (∀ name : string, JsZip.get ("assets/" +:+ name) z5 = None) as Hfresh.
  { intros name. apply get_not_key. rewrite Hkeys5. unfold member_names.
    rewrite !not_elem_of_cons. split_and!; try (by intros [=]).
    apply not_elem_of_nil. }
  destruct (assets s) as [|a l] eqn:Hl; [done|].
  unfold fill_assets. cbn [includedFilesAll IncludedFiles.assets]. rewrite Hl.
  rewrite write_assets_new_folder; [|apply (Hfresh EmptyString)|done|by intros].
  set (zf := z5 ++ ("assets/", EmptyString) :: (asset_entry <$> a :: l)).
  assert (∀ k v, JsZip.get k z5 = Some v → JsZip.get k zf = Some v) as Hget.
  { intros k v Hk. unfold zf. by rewrite get_app, Hk. }
  assert (loadBundle_assets zf = a :: l) as Hloaded.
  { unfold zf. rewrite loadBundle_assets_app.
    rewrite loadBundle_assets_none
      by (rewrite Hkeys5; unfold member_names; by repeat constructor).
    change (loadBundle_assets (("assets/", EmptyString) :: (asset_entry <$> a :: l)))
      with (loadBundle_assets (asset_entry <$> a :: l)).
    apply loadBundle_assets_entries. by destruct Hplain. }
  assert (Some (default EmptyString (htmlTemplate s)) = htmlTemplate s) as Hdef
    by (by destruct (htmlTemplate s) as [[|]|]).
  rewrite Hdef in Hi5.
  rewrite loadBundle_zip.
  unfold load_options, load_model, load_assets, load_texts, options_text, model_text.
  rewrite (Hget _ _ Ho5), (Hget _ _ Hm5), Hloaded.
  destruct (htmlTemplate s) as [body|] eqn:Eb; [|done].
  destruct (headerHtmlTemplate s) as [hd|] eqn:Eh; [|done].
  destruct (footerHtmlTemplate s) as [ft|] eqn:Ef; [|done].
  rewrite (Hget _ _ Hi5), (Hget _ _ Hh5), (Hget _ _ Hf5).
  rewrite Hbody, Hheader, Hfooter.
  rewrite !truthy_nonempty by done.
  change (default EmptyString (Some ?x)) with x.
  change (default "{}" (Some ?x)) with x.
  rewrite Hoback, Hmback. by rewrite bool_decide_true by (simpl; lia).
Qed.
End RoundTrip.

(* ===================================================================== *)
(** ** The operations that load into the reactive session *)
(* ===================================================================== *)

Section ReactiveSession.
Context `{JsonApi} `{RenderDataBase} `{Server}.
Implicit Types (z : JsZip.t) (st : State).

Lemma flush_watch_dirty (queued : bool) st :
  dirty (flush_watch queued st) = queued || dirty st.
Proof. by destruct queued. Qed.

Lemma flush_watch_frame (queued : bool) st :
  renderTemplateData (flush_watch queued st) = renderTemplateData st ∧
  currentBundle (flush_watch queued st) = currentBundle st ∧
  bundleError (flush_watch queued st) = bundleError st ∧
  bundleFileInputModel (flush_watch queued st) = bundleFileInputModel st ∧
  localStorage (flush_watch queued st) = localStorage st.
Proof. by destruct queued. Qed.

(** [getBundle], with [loadBundle] on the session and the watcher it
    queues. *)
Lemma getBundle_eq (id : string) st :
  getBundle id st =
    match fetch (serverBaseUrl +:+ "/api/html-bundle/" +:+ id) with
    | FetchRejected e => getBundle_catch e st
    | FetchResponse false statusText _ =>
        set_bundleError (Some ("Error loading bundle: " +:+ statusText)) st
    | FetchResponse true _ (inl e) => getBundle_catch e st
    | FetchResponse true _ (inr data) =>
        match form_bundle data with
        | None => getBundle_catch (TypeError "bundle is null") st
        | Some bundle =>
            let queued := loadBundle_notifies bundle (renderTemplateData st) in
            match loadBundle bundle (renderTemplateData st) with
            | (inl e, target) =>
                getBundle_catch e (flush_watch queued (set_renderTemplateData target st))
            | (inr _, target) =>
                let engine :=
                  EnumRenderTemplateDataTemplateEngine (form_templateEngine data) in
                flush_watch (hasChanged (templateEngine target) engine)
                  (set_dirty false
                     (set_currentBundle (Some (BundleInfo.mk id (form_name data)))
                        (set_renderTemplateData (set_templateEngine engine target)
                           (flush_watch queued (set_renderTemplateData target st)))))
            end
        end
    end.
Proof.
  unfold getBundle.
  destruct (fetch _) as [e|[] statusText [e|data]]; try done.
  destruct (form_bundle data) as [bundle|]; [|done].
  rewrite loadBundle_reactive_eq.
  by destruct (loadBundle bundle (renderTemplateData st)) as [[e|[]] target].
Qed.

(** The import of a file, in the same way. *)
Lemma watch_bundleFileInputModel_eq (bytes : ArchiveBytes) st :
  watch_bundleFileInputModel (Some bytes) st =
    let queued := loadBundle_notifies bytes (renderTemplateData st) in
    let st := set_bundleFileInputModel (Some bytes) st in
    match loadBundle bytes (renderTemplateData st) with
    | (inl e, target) => (inl e, flush_watch queued (set_renderTemplateData target st))
    | (inr _, target) =>
        (inr (),
         set_bundleFileInputModel None
           (cleanLocalStorageBundle
              (set_currentBundle None
                 (flush_watch queued (set_renderTemplateData target st)))))
    end.
Proof.
  unfold watch_bundleFileInputModel.
  cbn [renderTemplateData set_bundleFileInputModel]. cbv zeta.
  rewrite loadBundle_reactive_eq.
  by destruct (loadBundle bytes (renderTemplateData st)) as [[e|[]] target].
Qed.
End ReactiveSession.

(* ===================================================================== *)
(** ** The example model and its string *)
(* ===================================================================== *)

Section ExampleModel.
Context `{JsonApi} `{RenderDataBase} `{Server}.
Implicit Types (z : JsZip.t) (data target : RenderTemplateDataViewModel)
  (inc : IncludedFiles.t) (st : State).

Lemma loadBundle_same_model_on_failure bytes target (e : exn) :
  (loadBundle bytes target).1 = inl e →
  same_model (loadBundle bytes target).2 target.
Proof.
  destruct bytes as [z|raw]; [|done].
  pose proof (loadBundle_model z target) as Hmodel. cbv zeta in Hmodel.
  rewrite loadBundle_result. intros Hfail.
  assert ((model (loadBundle (ZipBytes z) target).2,
           modelStr (loadBundle (ZipBytes z) target).2)
          = (model target, modelStr target)) as [= ? ?]; [|done].
  rewrite Hmodel. unfold member_decodes at 2 in Hfail.
  change (default EmptyString (Some (model_text z))) with (model_text z) in Hfail.
  destruct (member_decodes (options_text z)); [|done].
  destruct (truthy (Some (model_text z))); [|done].
  by destruct (JSON_parse (model_text z)).
Qed.

Lemma loadBundle_in_sync z target :
  (loadBundle (ZipBytes z) target).1 = inr () →
  prints_back (model_text z) →
  (model_text z ≠ EmptyString ∨ model_in_sync target) →
  model_in_sync (loadBundle (ZipBytes z) target).2.
Proof.
  pose proof (loadBundle_model z target) as Hmodel. cbv zeta in Hmodel.
  rewrite loadBundle_result. intros Hok Hback Hsync.
  unfold model_in_sync.
  destruct (member_decodes (options_text z)); [|done].
  unfold member_decodes in Hok.
  change (default EmptyString (Some (model_text z))) with (model_text z) in Hok.
  cbn [andb] in Hok, Hmodel.
  destruct (truthy (Some (model_text z))) eqn:Ht.
  - destruct (JSON_parse (model_text z)) as [m|] eqn:Hm; [|done].
    injection Hmodel as -> ->. by apply Hback.
  - injection Hmodel as -> ->.
    destruct Hsync as [Hne|Hsync]; [|done].
    by rewrite truthy_nonempty in Ht.
Qed.

Lemma packBundle_set_model data inc (x : json) :
  packBundle (set_model x data) inc = packBundle data inc.
Proof. done. Qed.

(** C9, as the code has it. The operations keep the example model and
    its string together. [loadBundle] that throws leaves both as they
    were; [loadBundle] that succeeds installs a value with the string the
    platform prints for it, or installs nothing (for an empty member), so
    that the string parses to the value after it whenever the platform
    reads back what it prints. [getBundle] and the import of a file leave
    the model to [loadBundle], all other operations leave the session as
    it is. [packBundle] does not read the cached value: when the example
    model is selected it parses the string, throws on a string that is no
    JSON text, and writes the print of the parsed value; when the example
    model is not selected it does not parse the string and does not
    throw. *)
Theorem example_model_in_sync :
  (∀ bytes target (e : exn),
     (loadBundle bytes target).1 = inl e →
     same_model (loadBundle bytes target).2 target) ∧
  (∀ z target,
     (loadBundle (ZipBytes z) target).1 = inr () →
     prints_back (model_text z) →
     (model_text z ≠ EmptyString → model_in_sync (loadBundle (ZipBytes z) target).2) ∧
     (model_text z = EmptyString → same_model (loadBundle (ZipBytes z) target).2 target) ∧
     (model_in_sync target → model_in_sync (loadBundle (ZipBytes z) target).2)) ∧
  (∀ data inc (x : json), packBundle (set_model x data) inc = packBundle data inc) ∧
  (∀ data inc,
     IncludedFiles.exampleModel inc = true →
     (JSON_parse (modelStr data) = None → packBundle data inc = inl SyntaxError) ∧
     (∀ m, JSON_parse (modelStr data) = Some m →
        ∃ z, packBundle data inc = inr (ZipBytes z) ∧
             JsZip.get "example-model.json" z = Some (JSON_stringify m))) ∧
  (∀ data inc,
     IncludedFiles.exampleModel inc = false →
     ∃ z, packBundle data inc = inr (ZipBytes z) ∧
          JsZip.get "example-model.json" z = None) ∧
  (∀ id st,
     same_model (renderTemplateData (getBundle id st)) (renderTemplateData st) ∨
     ∃ bytes,
       same_model (renderTemplateData (getBundle id st))
         (loadBundle bytes (renderTemplateData st)).2) ∧
  (∀ bytes st,
     same_model (renderTemplateData (watch_bundleFileInputModel (Some bytes) st).2)
       (loadBundle bytes (renderTemplateData st)).2) ∧
  (∀ name only st,
     renderTemplateData (storeBundle name st).2 = renderTemplateData st ∧
     renderTemplateData (downloadBundle only st).2 = renderTemplateData st ∧
     renderTemplateData (loadBundlesInfo st).2 = renderTemplateData st ∧
     renderTemplateData (watch_bundleFileInputModel None st).2 = renderTemplateData st ∧
     renderTemplateData (cleanLocalStorageBundle st) = renderTemplateData st ∧
     renderTemplateData (watch_renderTemplateData st) = renderTemplateData st ∧
     renderTemplateData (onbeforeunload st).1 = renderTemplateData st).
Proof.
  split_and!.
  - apply loadBundle_same_model_on_failure.
  - intros z target Hok Hback. split_and!.
    + intros Hne. apply loadBundle_in_sync; auto.
    + intros Hempty.
      pose proof (loadBundle_model z target) as Hmodel. cbv zeta in Hmodel.
      rewrite Hempty in Hmodel. change (truthy (Some EmptyString)) with false in Hmodel.
      rewrite andb_false_r in Hmodel. by injection Hmodel as ? ?.
    + intros Hsync. apply loadBundle_in_sync; auto.
  - done.
  - intros data inc Hsel. split.
    + intros Hbad. by apply (packBundle_archive data inc).
    + intros m Hm.
      destruct (packBundle_archive data inc) as (_ & Hex & Hget).
      destruct Hex as [z Hz]; [right; by rewrite Hm|].
      exists z. split; [done|].
      destruct (Hget z Hz) as (_ & _ & _ & _ & -> & _). by rewrite Hsel, Hm.
  - intros data inc Hsel.
    destruct (packBundle_archive data inc) as (_ & Hex & Hget).
    destruct Hex as [z Hz]; [by left|].
    exists z. split; [done|].
    destruct (Hget z Hz) as (_ & _ & _ & _ & -> & _). by rewrite Hsel.
  - intros id st. rewrite getBundle_eq. unfold getBundle_catch.
    destruct (fetch _) as [e|[] statusText [e|data]]; try (by left).
    destruct (form_bundle data) as [bundle|]; [|by left].
    right. exists bundle. cbv zeta.
    destruct (loadBundle_notifies bundle (renderTemplateData st));
      destruct (loadBundle bundle (renderTemplateData st)) as [[e|[]] target'];
      try done.
    all: by destruct (hasChanged _ _).
  - intros bytes st. rewrite watch_bundleFileInputModel_eq. cbv zeta.
    cbn [renderTemplateData set_bundleFileInputModel].
    by destruct (loadBundle_notifies bytes (renderTemplateData st));
      destruct (loadBundle bytes (renderTemplateData st)) as [[e|[]] target'].
  - intros name only st. split_and!; try done.
    + unfold storeBundle.
      destruct (packBundle _ _); [done|].
      by destruct (SaveHtmlBundleService_htmlBundle _).
    + unfold downloadBundle. by destruct (packBundle _ _).
    + unfold loadBundlesInfo. by destruct ListHtmlBundlesInfoService_htmlBundle.
    + unfold onbeforeunload. destruct (currentBundle st); [|done]. by destruct (truthy _).
Qed.
End ExampleModel.

(* ===================================================================== *)
(** ** The session reconciler *)
(* ===================================================================== *)

Section Reconciler.
Context `{JsonApi} `{RenderDataBase} `{Server}.
Implicit Types (z : JsZip.t) (st : State).

(** C2, as the code has it. [getBundle] that fails before the members of
    the archive are decoded (the fetch is rejected, the response is not
    ok, its form data cannot be read or has no bundle, the bundle is no
    zip container) sets [bundleError] and leaves the session and [dirty]
    as they were. [getBundle] that fails in [loadBundle] on a JSON member
    sets [bundleError] and leaves the session as [loadBundle] left it: the
    model, its string, the assets and the template engine as they were,
    the members assigned before the failing one overwritten; [dirty] is
    true when one of these writes has queued the watcher of the session,
    and as it was otherwise. No failure assigns [currentBundle]. On
    success [currentBundle] is the id with the name of the response and
    the template engine is the one of the tag of the response; [dirty]
    is set to false, and the watcher that the write of the template
    engine queues runs after that, so that [dirty] ends false exactly
    when the template engine of the session was the one of the tag
    already. *)
Theorem getBundle_outcome (id : string) st :
  let url := serverBaseUrl +:+ "/api/html-bundle/" +:+ id in
  let st' := getBundle id st in
  (∀ e, fetch url = FetchRejected e →
     bundleError st' = Some ("Error loading bundle: " +:+ exn_toString e) ∧
     untouched st st') ∧
  (∀ statusText body, fetch url = FetchResponse false statusText body →
     bundleError st' = Some ("Error loading bundle: " +:+ statusText) ∧
     untouched st st') ∧
  (∀ statusText e, fetch url = FetchResponse true statusText (inl e) →
     bundleError st' = Some ("Error loading bundle: " +:+ exn_toString e) ∧
     untouched st st') ∧
  (∀ statusText data, fetch url = FetchResponse true statusText (inr data) →
     (form_bundle data = None → is_Some (bundleError st') ∧ untouched st st') ∧
     (∀ raw, form_bundle data = Some (OtherBytes raw) →
        is_Some (bundleError st') ∧ untouched st st') ∧
     (∀ z, form_bundle data = Some (ZipBytes z) →
        let r := loadBundle (ZipBytes z) (renderTemplateData st) in
        let engine := EnumRenderTemplateDataTemplateEngine (form_templateEngine data) in
        (∀ e, r.1 = inl e →
           bundleError st' = Some ("Error loading bundle: " +:+ exn_toString e) ∧
           currentBundle st' = currentBundle st ∧
           dirty st' = observed_writes z (renderTemplateData st) || dirty st ∧
           localStorage st' = localStorage st ∧
           renderTemplateData st' = r.2 ∧
           same_model (renderTemplateData st') (renderTemplateData st) ∧
           assets (renderTemplateData st') = assets (renderTemplateData st) ∧
           templateEngine (renderTemplateData st')
             = templateEngine (renderTemplateData st)) ∧
        (r.1 = inr () →
           currentBundle st' = Some (BundleInfo.mk id (form_name data)) ∧
           dirty st' = hasChanged (templateEngine (renderTemplateData st)) engine ∧
           (dirty st' = false ↔ templateEngine (renderTemplateData st) = engine) ∧
           bundleError st' = bundleError st ∧
           localStorage st' = localStorage st ∧
           renderTemplateData st' = set_templateEngine engine r.2))).
Proof.
  cbv zeta. rewrite getBundle_eq. unfold getBundle_catch, untouched. split_and!.
  - by intros e ->.
  - by intros statusText body ->.
  - by intros statusText e ->.
  - intros statusText data ->. split_and!.
    + intros ->. eauto.
    + intros raw ->. simpl. eauto.
    + intros z ->. cbv zeta. rewrite loadBundle_notifies_zip.
      pose proof (loadBundle_templateEngine z (renderTemplateData st)) as Hengine.
      split.
      * intros e He.
        pose proof (loadBundle_same_model_on_failure _ _ _ He) as Hsame.
        pose proof (loadBundle_assets_field z (renderTemplateData st)) as Hassets.
        pose proof (loadBundle_result z (renderTemplateData st)) as Hres.
        rewrite He in Hres.
        destruct (member_decodes (options_text z)
                  && member_decodes (Some (model_text z))); [done|].
        cbn [andb] in Hassets.
        destruct (loadBundle (ZipBytes z) (renderTemplateData st))
          as [[e'|[]] target']; simpl in *; [|done].
        injection He as ->.
        by destruct (observed_writes z (renderTemplateData st)).
      * intros Hok.
        destruct (loadBundle (ZipBytes z) (renderTemplateData st))
          as [[e'|[]] target'] eqn:Hload; simpl in *; [done|].
        rewrite Hengine. unfold hasChanged.
        case_bool_decide as Heq;
          destruct (observed_writes z (renderTemplateData st)); simpl;
          split_and!; try done.
Qed.

(** C8, as the code has it. [storeBundle] that fails, in [packBundle] or
    in the request to the remote store, sets [bundleError], returns the
    empty string, and leaves [currentBundle], [dirty] and the session as
    they were. On success it returns the id of the store, whatever it
    is, [currentBundle] is this id with the name given, and [dirty] is
    false. So a result that is not empty is the result of a success,
    and the empty result is the one of a failure or of a store that has
    answered the empty id. *)
Theorem storeBundle_outcome (name : string) st :
  let request bundle :=
    {| save_bundle := bundle;
       save_name := name;
       save_id := default EmptyString (BundleInfo.id <$> currentBundle st);
       save_templateEngine := templateEngine (renderTemplateData st) |} in
  let r := storeBundle name st in
  (∀ e, packBundle (renderTemplateData st) includedFilesAll = inl e →
     r.1 = EmptyString ∧
     bundleError r.2 = Some ("Error saving bundle: " +:+ exn_toString e) ∧
     untouched st r.2) ∧
  (∀ bundle e,
     packBundle (renderTemplateData st) includedFilesAll = inr bundle →
     SaveHtmlBundleService_htmlBundle (request bundle) = inl e →
     r.1 = EmptyString ∧
     bundleError r.2 = Some ("Error saving bundle: " +:+ exn_toString e) ∧
     untouched st r.2) ∧
  (∀ bundle res_id,
     packBundle (renderTemplateData st) includedFilesAll = inr bundle →
     SaveHtmlBundleService_htmlBundle (request bundle) = inr res_id →
     r.1 = res_id ∧
     currentBundle r.2 = Some (BundleInfo.mk res_id name) ∧
     dirty r.2 = false ∧
     bundleError r.2 = bundleError st ∧
     renderTemplateData r.2 = renderTemplateData st ∧
     localStorage r.2 = localStorage st) ∧
  (r.1 ≠ EmptyString →
     ∃ bundle,
       packBundle (renderTemplateData st) includedFilesAll = inr bundle ∧
       SaveHtmlBundleService_htmlBundle (request bundle) = inr r.1 ∧
       currentBundle r.2 = Some (BundleInfo.mk r.1 name) ∧
       dirty r.2 = false) ∧
  (r.1 = EmptyString →
     (∃ e, bundleError r.2 = Some ("Error saving bundle: " +:+ exn_toString e) ∧
           untouched st r.2) ∨
     (∃ bundle,
        packBundle (renderTemplateData st) includedFilesAll = inr bundle ∧
        SaveHtmlBundleService_htmlBundle (request bundle) = inr EmptyString ∧
        currentBundle r.2 = Some (BundleInfo.mk EmptyString name) ∧
        dirty r.2 = false ∧
        bundleError r.2 = bundleError st)).
Proof.
  cbv zeta. unfold storeBundle, untouched. split_and!.
  - by intros e ->.
  - by intros bundle e -> ->.
  - by intros bundle res_id -> ->.
  - destruct (packBundle _ _) as [e|bundle]; [done|].
    destruct (SaveHtmlBundleService_htmlBundle _) as [e|res_id] eqn:Hsave; [done|].
    intros _. by exists bundle.
  - destruct (packBundle _ _) as [e|bundle]; [intros _; left; by exists e|].
    destruct (SaveHtmlBundleService_htmlBundle _) as [e|res_id] eqn:Hsave.
    + intros _. left. by exists e.
    + simpl. intros ->. right. by exists bundle.
Qed.

(** C4, as the code has it. The import of a local archive file that
    [loadBundle] decodes leaves the session as [loadBundle] made it,
    clears [currentBundle], removes the resume pointer from the local
    storage, and empties the file input. When [loadBundle] throws, the
    import ends there: [currentBundle], the resume pointer and the file
    input are as they were. The import does not assign [dirty] and so
    never makes it false: after it, with or without a throw, [dirty] is
    true when a write of [loadBundle] has queued the watcher of the
    session, and as it was otherwise. *)
Theorem watch_bundleFileInputModel_outcome (bytes : ArchiveBytes) st :
  let r := loadBundle bytes (renderTemplateData st) in
  let out := watch_bundleFileInputModel (Some bytes) st in
  let written :=
    match bytes with
    | ZipBytes z => observed_writes z (renderTemplateData st)
    | OtherBytes _ => false
    end in
  (r.1 = inr () →
     out.1 = inr () ∧
     renderTemplateData out.2 = r.2 ∧
     currentBundle out.2 = None ∧
     localStorage out.2 !! "currentBundle" = None ∧
     (∀ k : string, k ≠ "currentBundle" →
        localStorage out.2 !! k = localStorage st !! k) ∧
     bundleFileInputModel out.2 = None ∧
     bundleError out.2 = bundleError st) ∧
  (∀ e, r.1 = inl e →
     out.1 = inl e ∧
     renderTemplateData out.2 = r.2 ∧
     currentBundle out.2 = currentBundle st ∧
     localStorage out.2 = localStorage st ∧
     bundleFileInputModel out.2 = Some bytes ∧
     bundleError out.2 = bundleError st) ∧
  dirty out.2 = written || dirty st ∧
  (dirty st = true → dirty out.2 = true).
Proof.
  cbv zeta. rewrite watch_bundleFileInputModel_eq. cbv zeta.
  unfold cleanLocalStorageBundle.
  cbn [renderTemplateData set_bundleFileInputModel].
  assert (loadBundle_notifies bytes (renderTemplateData st)
          = match bytes with
            | ZipBytes z => observed_writes z (renderTemplateData st)
            | OtherBytes _ => false
            end) as ->.
  { destruct bytes; [apply loadBundle_notifies_zip|done]. }
  destruct (match bytes with ZipBytes z => _ | OtherBytes _ => false end);
    destruct (loadBundle bytes (renderTemplateData st)) as [[e|[]] target'];
    simpl; split_and!; try done.
  all: try (intros e' [= <-]; by split_and!).
  all: intros _; split_and!; try done;
    [apply lookup_delete_eq|intros k Hk; by apply lookup_delete_ne].
Qed.
End Reconciler.

(* ===================================================================== *)
(** ** The operations on concrete sessions and archives *)
(* ===================================================================== *)

Section Concrete.
#[local] Existing Instance MiniJson.api.
#[local] Existing Instance Sample.base.

(** [loadBundle] of an archive with three empty text members. *)
Lemma loadBundle_empty_text_member_witness :
  JsZip.get "index.html" Sample.empty_body = Some EmptyString ∧
  htmlTemplate (loadBundle (ZipBytes Sample.empty_body) Sample.session).2
    = htmlTemplate Sample.session ∧
  loadBundle (ZipBytes Sample.empty_body) Sample.session
    = loadBundle (ZipBytes (JsZip.remove "index.html" Sample.empty_body)) Sample.session.
Proof.
  split; [reflexivity|].
  destruct (loadBundle_empty_text_member Sample.empty_body Sample.session)
    as (Hindex & _).
  apply Hindex. reflexivity.
Defined.

(** The header-only archive that [packBundle] writes for [onlyHeader],
    loaded into a session with a model: the model is not the one of the
    session any more. An archive whose text members are present and
    empty: the body of the session is not overwritten. *)
Lemma loadBundle_header_only_changes_model :
  (packBundle (set_headerHtmlTemplate (Some "<header>new</header>") Sample.session)
     (downloadBundle_includedFiles (Some onlyHeader))
     = inr (ZipBytes Sample.header_only) ∧
   JsZip.get "example-model.json" Sample.header_only = None ∧
   let r := loadBundle (ZipBytes Sample.header_only) Sample.session in
   r.1 = inr () ∧
   model r.2 = JObj ∅ ∧ model r.2 ≠ model Sample.session ∧
   modelStr r.2 = "{}" ∧ modelStr r.2 ≠ modelStr Sample.session) ∧
  (JsZip.get "index.html" Sample.empty_body = Some EmptyString ∧
   let r := loadBundle (ZipBytes Sample.empty_body) Sample.session in
   r.1 = inr () ∧
   htmlTemplate r.2 = Some "<h1>{{ .title }}</h1>").
Proof.
  cbv zeta. split_and!; try (vm_compute; reflexivity).
  - intros Heq. apply (f_equal (λ v, own_props v !! "title")) in Heq.
    vm_compute in Heq. discriminate.
  - intros Heq. vm_compute in Heq. discriminate.
Qed.

(** The header-only archive loaded into a session with every member
    kind set, and the archive whose text members are empty. *)
Lemma loadBundle_frame_witness :
  (let r := loadBundle (ZipBytes Sample.header_only) Sample.session in
   JsZip.get "index.html" Sample.header_only = None ∧
   headerHtmlTemplate r.2 = Some "<header>new</header>" ∧
   htmlTemplate r.2 = htmlTemplate Sample.session ∧
   footerHtmlTemplate r.2 = footerHtmlTemplate Sample.session ∧
   options r.2 = options Sample.session ∧
   assets r.2 = assets Sample.session) ∧
  (let r := loadBundle (ZipBytes Sample.empty_body) Sample.session in
   JsZip.get "index.html" Sample.empty_body = Some EmptyString ∧
   htmlTemplate r.2 = htmlTemplate Sample.session).
Proof.
  cbv zeta. split.
  - destruct (loadBundle_frame Sample.header_only Sample.session)
      as (_ & _ & _ & _ & _ & _ & _ & _ & _ & _ & _ & Honly).
    split; [reflexivity|].
    apply (Honly "<header>new</header>"); [reflexivity|discriminate].
  - destruct (loadBundle_frame Sample.empty_body Sample.session)
      as (_ & _ & _ & _ & _ & _ & Hindex & _).
    split; [reflexivity|].
    exact (Hindex EmptyString eq_refl).
Defined.

(** An archive whose example model is the empty text, which is no JSON
    text: [loadBundle] succeeds. An archive whose example model is ["{"]:
    [loadBundle] throws. *)
Lemma loadBundle_empty_model_succeeds :
  JsZip.get "example-model.json" Sample.empty_model = Some EmptyString ∧
  JSON_parse EmptyString = None ∧
  (loadBundle (ZipBytes Sample.empty_model) Sample.session).1 = inr ().
Proof. split_and!; vm_compute; reflexivity. Qed.

Lemma loadBundle_malformed_model_witness :
  JsZip.get "example-model.json" Sample.body_and_bad_model = Some "{" ∧
  JSON_parse "{" = None ∧
  let r := loadBundle (ZipBytes Sample.body_and_bad_model) Sample.session in
  model r.2 = model Sample.session ∧ modelStr r.2 = modelStr Sample.session ∧
  r.1 = inl SyntaxError.
Proof.
  split; [reflexivity|]. split; [reflexivity|].
  destruct (loadBundle_malformed_model Sample.body_and_bad_model Sample.session "{")
    as (Hmodel & Hstr & Hthrows & _); [reflexivity|reflexivity|].
  split_and!; [exact Hmodel|exact Hstr|]. apply Hthrows. discriminate.
Defined.

(** Options that are present and empty, or present and no JSON text,
    loaded into a session whose options have no margins: no baseline value
    is filled in. *)
Lemma loadBundle_options_not_decoded :
  (JsZip.get "options.json" Sample.empty_options = Some EmptyString ∧
   let r := loadBundle (ZipBytes Sample.empty_options) Sample.session_two_options in
   r.1 = inr () ∧
   options r.2 = options Sample.session_two_options ∧
   options r.2 !! "margins" = None ∧
   getBaseOptions !! "margins" = Some Sample.margins) ∧
  (JsZip.get "options.json" Sample.bad_options = Some "{" ∧
   let r := loadBundle (ZipBytes Sample.bad_options) Sample.session_two_options in
   r.1 = inl SyntaxError ∧
   options r.2 !! "margins" = None).
Proof. cbv zeta. split_and!; vm_compute; reflexivity. Qed.

Lemma loadBundle_options_overlay_witness :
  (JsZip.get "options.json" Sample.landscape_only
     = Some ("{" +:+ MiniJson.q "landscape" +:+ ":true}") ∧
   let options' :=
     options (loadBundle (ZipBytes Sample.landscape_only) Sample.session_two_options).2 in
   options' !! "landscape" = Some (JBool true) ∧
   options' !! "margins" = getBaseOptions !! "margins") ∧
  (JsZip.get "options.json" Sample.empty_options = Some EmptyString ∧
   let r := loadBundle (ZipBytes Sample.empty_options) Sample.session_two_options in
   options r.2 = options Sample.session_two_options ∧ r.1 = inr ()) ∧
  (JsZip.get "options.json" Sample.bad_options = Some "{" ∧
   JSON_parse "{" = None ∧
   let r := loadBundle (ZipBytes Sample.bad_options) Sample.session_two_options in
   options r.2 = options Sample.session_two_options ∧ r.1 = inl SyntaxError).
Proof.
  cbv zeta. split; [|split].
  - split; [reflexivity|].
    destruct (loadBundle_options_overlay Sample.landscape_only
                Sample.session_two_options
                ("{" +:+ MiniJson.q "landscape" +:+ ":true}") eq_refl)
      as (Hvalid & _).
    destruct (Hvalid (JObj (<["landscape" := JBool true]> ∅)))
      as (_ & Hkey & Hbase); [discriminate|reflexivity|].
    split; [apply Hkey|apply Hbase]; reflexivity.
  - split; [reflexivity|].
    destruct (loadBundle_options_overlay Sample.empty_options
                Sample.session_two_options EmptyString eq_refl) as (_ & Hempty & _).
    exact (Hempty eq_refl).
  - split; [reflexivity|]. split; [reflexivity|].
    destruct (loadBundle_options_overlay Sample.bad_options
                Sample.session_two_options "{" eq_refl) as (_ & _ & Hbad).
    apply Hbad; [discriminate|reflexivity].
Defined.

Lemma packBundle_members_witness :
  JSON_parse "{}" = Some (JObj ∅) ∧
  packBundle Sample.scenario includedFilesAll =
    inr (ZipBytes [("index.html", "<p>hi</p>");
                   ("options.json", JSON_stringify (JObj (options Sample.scenario)));
                   ("example-model.json", JSON_stringify (JObj ∅))]).
Proof.
  split; [reflexivity|].
  destruct (packBundle_members Sample.scenario includedFilesAll) as (_ & Hscenario).
  apply Hscenario. reflexivity.
Defined.

(** A full session, packed and loaded into the default target. *)
Lemma packBundle_loadBundle_roundtrip_witness :
  let s := Sample.session in
  let m := model Sample.session in
  (truthy (htmlTemplate s) = true ∧ truthy (headerHtmlTemplate s) = true ∧
   truthy (footerHtmlTemplate s) = true ∧
   JSON_parse (modelStr s) = Some m ∧
   JSON_stringify m ≠ EmptyString ∧
   JSON_parse (JSON_stringify m) = Some m ∧
   JSON_stringify (JObj (options s)) ≠ EmptyString ∧
   JSON_parse (JSON_stringify (JObj (options s))) = Some (JObj (options s)) ∧
   assets s ≠ [] ∧ plain_assets (assets s)) ∧
  ∃ bytes,
    packBundle s includedFilesAll = inr bytes ∧
    loadBundle bytes getBaseRenderData =
      (inr (),
       {| htmlTemplate := htmlTemplate s;
          headerHtmlTemplate := headerHtmlTemplate s;
          footerHtmlTemplate := footerHtmlTemplate s;
          options := spread getBaseOptions (options s);
          model := m;
          modelStr := JSON_stringify_indent2 m;
          assets := assets s;
          templateEngine := templateEngine getBaseRenderData |}) ∧
    (spread getBaseOptions (options s) = options s ↔
       dom getBaseOptions ⊆ dom (options s)).
Proof.
  cbv zeta.
  assert (plain_assets (assets Sample.session)) as Hplain.
  { split.
    - repeat constructor. discriminate.
    - repeat constructor. apply not_elem_of_nil. }
  split.
  - split_and!; try (vm_compute; reflexivity); try discriminate. exact Hplain.
  - apply (packBundle_loadBundle_roundtrip Sample.session getBaseRenderData
             (model Sample.session));
      try (vm_compute; reflexivity); try discriminate. exact Hplain.
Defined.

(** The same session with the two options of the scenario: the options
    that come back have the margins of the baseline. *)
Lemma roundtrip_fills_baseline_options :
  let s := Sample.session_two_options in
  truthy (htmlTemplate s) = true ∧ truthy (headerHtmlTemplate s) = true ∧
  truthy (footerHtmlTemplate s) = true ∧ options s ≠ ∅ ∧ assets s ≠ [] ∧
  is_Some (JSON_parse (modelStr s)) ∧
  match packBundle s includedFilesAll with
  | inr bytes =>
      let r := loadBundle bytes getBaseRenderData in
      r.1 = inr () ∧
      options s !! "margins" = None ∧
      options r.2 !! "margins" = Some Sample.margins ∧
      options r.2 ≠ options s
  | inl _ => False
  end.
Proof.
  cbv zeta.
  split_and!; try (vm_compute; reflexivity); try discriminate.
  - eexists. vm_compute. reflexivity.
  - destruct (packBundle Sample.session_two_options includedFilesAll)
      as [e|bytes] eqn:Hpack; [vm_compute in Hpack; discriminate|].
    vm_compute in Hpack. injection Hpack as <-.
    split_and!; try (vm_compute; reflexivity).
    intros Heq. apply (f_equal (λ o : jsobject, o !! "margins")) in Heq.
    vm_compute in Heq. discriminate.
Qed.

(** [packBundle] of a session whose model string is no JSON text, with a
    selection that leaves the example model out. *)
Lemma packBundle_ignores_unselected_model :
  JSON_parse "{" = None ∧
  packBundle (set_modelStr "{" Sample.session)
    (downloadBundle_includedFiles (Some onlyHeader))
    = inr (ZipBytes [("header.html", "<header>page</header>")]).
Proof. split; vm_compute; reflexivity. Qed.

Lemma example_model_in_sync_witness :
  (loadBundle (ZipBytes Sample.body_and_bad_model) Sample.session).1 = inl SyntaxError ∧
  same_model (loadBundle (ZipBytes Sample.body_and_bad_model) Sample.session).2
    Sample.session ∧
  (loadBundle (ZipBytes Sample.header_only) Sample.session).1 = inr () ∧
  model_in_sync (loadBundle (ZipBytes Sample.header_only) Sample.session).2.
Proof.
  destruct (@example_model_in_sync _ _ (Sample.server Sample.header_only (inr "b-2")))
    as (Hfail & Hok & _).
  split; [reflexivity|]. split; [by apply (Hfail (ZipBytes Sample.body_and_bad_model) Sample.session SyntaxError)|].
  split; [reflexivity|].
  destruct (Hok Sample.header_only Sample.session) as (Hinstalled & _).
  - reflexivity.
  - intros m Hm. vm_compute in Hm. injection Hm as <-. reflexivity.
  - apply Hinstalled. discriminate.
Defined.
(** A server whose bundle has a new body and an example model that is
    no JSON text: [getBundle] fails, and the body of the session is the
    new one. *)
Lemma getBundle_failure_modifies_session :
  let st := Sample.state Sample.session false in
  let st' := @getBundle _ _ (Sample.server Sample.body_and_bad_model (inr "b-2")) "b-2" st in
  is_Some (bundleError st') ∧
  htmlTemplate (renderTemplateData st) = Some "<h1>{{ .title }}</h1>" ∧
  htmlTemplate (renderTemplateData st') = Some "<p>new</p>" ∧
  renderTemplateData st' ≠ renderTemplateData st.
Proof.
  cbv zeta. split_and!; try (vm_compute; reflexivity).
  - eexists. vm_compute. reflexivity.
  - intros Heq. apply (f_equal htmlTemplate) in Heq. vm_compute in Heq. discriminate.
Qed.

(** A server whose bundle decodes and whose tag is [handlebars], with a
    session of this template engine and with a session of another one. *)
Lemma getBundle_outcome_witness :
  let srv := Sample.server Sample.header_only (inr "b-2") in
  let same := Sample.state (set_templateEngine (Some "handlebars") Sample.session) true in
  let other := Sample.state Sample.session true in
  @fetch srv (@serverBaseUrl srv +:+ "/api/html-bundle/" +:+ "b-2")
    = FetchResponse true "OK"
        (inr (mkForm (Some (ZipBytes Sample.header_only)) "fetched" "handlebars")) ∧
  (loadBundle (ZipBytes Sample.header_only) (renderTemplateData same)).1 = inr () ∧
  (loadBundle (ZipBytes Sample.header_only) (renderTemplateData other)).1 = inr () ∧
  (let st' := @getBundle _ _ srv "b-2" same in
   currentBundle st' = Some (BundleInfo.mk "b-2" "fetched") ∧
   dirty st' = false ∧
   templateEngine (renderTemplateData st') = Some "handlebars") ∧
  (let st' := @getBundle _ _ srv "b-2" other in
   currentBundle st' = Some (BundleInfo.mk "b-2" "fetched") ∧
   dirty st' = true ∧
   templateEngine (renderTemplateData st') = Some "handlebars").
Proof.
  cbv zeta.
  split; [reflexivity|]. split; [vm_compute; reflexivity|].
  split; [vm_compute; reflexivity|]. split.
  - destruct (@getBundle_outcome _ _ (Sample.server Sample.header_only (inr "b-2"))
                "b-2"
                (Sample.state (set_templateEngine (Some "handlebars") Sample.session) true))
      as (_ & _ & _ & Hresponse).
    destruct (Hresponse "OK"
                (mkForm (Some (ZipBytes Sample.header_only)) "fetched" "handlebars"))
      as (_ & _ & Hzip); [reflexivity|].
    destruct (Hzip Sample.header_only) as (_ & Hok); [reflexivity|].
    destruct Hok as (Hcurrent & _ & Hdirty & _ & _ & Hdata); [vm_compute; reflexivity|].
    split_and!; [exact Hcurrent|apply Hdirty; reflexivity|].
    rewrite Hdata. reflexivity.
  - destruct (@getBundle_outcome _ _ (Sample.server Sample.header_only (inr "b-2"))
                "b-2" (Sample.state Sample.session true))
      as (_ & _ & _ & Hresponse).
    destruct (Hresponse "OK"
                (mkForm (Some (ZipBytes Sample.header_only)) "fetched" "handlebars"))
      as (_ & _ & Hzip); [reflexivity|].
    destruct (Hzip Sample.header_only) as (_ & Hok); [reflexivity|].
    destruct Hok as (Hcurrent & Hdirty & _ & _ & _ & Hdata); [vm_compute; reflexivity|].
    split_and!; [exact Hcurrent|rewrite Hdirty; reflexivity|].
    rewrite Hdata. reflexivity.
Defined.

(** A store that answers, and a store that throws. *)
Lemma storeBundle_outcome_witness :
  let st := Sample.state Sample.session true in
  (let r := @storeBundle _ (Sample.server [] (inr "b-7")) "renamed" st in
   r.1 = "b-7" ∧ currentBundle r.2 = Some (BundleInfo.mk "b-7" "renamed") ∧
   dirty r.2 = false) ∧
  (let r := @storeBundle _ (Sample.server [] (inl (Error "offline"))) "renamed" st in
   r.1 = EmptyString ∧
   bundleError r.2 = Some "Error saving bundle: Error: offline" ∧
   currentBundle r.2 = currentBundle st ∧ dirty r.2 = true).
Proof.
  cbv zeta. split.
  - destruct (@storeBundle_outcome _ (Sample.server [] (inr "b-7")) "renamed"
                (Sample.state Sample.session true)) as (_ & _ & Hok & _).
    destruct (packBundle Sample.session includedFilesAll) as [e|bundle] eqn:Hpack;
      [vm_compute in Hpack; discriminate|].
    destruct (Hok bundle "b-7") as (Hid & Hcurrent & Hdirty & _);
      [exact Hpack|reflexivity|].
    split_and!; [exact Hid|exact Hcurrent|exact Hdirty].
  - destruct (@storeBundle_outcome _ (Sample.server [] (inl (Error "offline")))
                "renamed" (Sample.state Sample.session true)) as (_ & Hfail & _).
    destruct (packBundle Sample.session includedFilesAll) as [e|bundle] eqn:Hpack;
      [vm_compute in Hpack; discriminate|].
    destruct (Hfail bundle (Error "offline")) as (Hid & Herror & _ & Hcurrent & Hdirty & _);
      [exact Hpack|reflexivity|].
    split_and!; [exact Hid|exact Herror|exact Hcurrent|exact Hdirty].
Defined.

(** A store that answers the empty id, and a store that throws: the two
    calls return the same string. The first is a success: no error is
    set, [currentBundle] and [dirty] are assigned. *)
Lemma storeBundle_empty_id_success :
  let st := Sample.state Sample.session true in
  let ok := @storeBundle _ (Sample.server [] (inr EmptyString)) "renamed" st in
  let failed := @storeBundle _ (Sample.server [] (inl (Error "offline"))) "renamed" st in
  is_Some (bundleError failed.2) ∧
  bundleError ok.2 = None ∧
  currentBundle ok.2 = Some (BundleInfo.mk EmptyString "renamed") ∧
  dirty ok.2 = false ∧
  ok.1 = EmptyString ∧
  ok.1 = failed.1.
Proof.
  cbv zeta. split_and!; try (vm_compute; reflexivity).
  eexists. vm_compute. reflexivity.
Qed.

(** The import of a valid archive into a session that is not dirty and
    into one that is: [dirty] is true after both. The import of an
    archive that does not decode, after its body is written: the current
    bundle and the resume pointer stay, and [dirty] is true. *)
Lemma import_ends_dirty :
  let clean := Sample.state Sample.session false in
  let edited := Sample.state Sample.session true in
  (let out := watch_bundleFileInputModel (Some (ZipBytes Sample.header_only)) clean in
   out.1 = inr () ∧ dirty clean = false ∧ dirty out.2 = true) ∧
  (let out := watch_bundleFileInputModel (Some (ZipBytes Sample.header_only)) edited in
   out.1 = inr () ∧ dirty edited = true ∧ dirty out.2 = true) ∧
  (let out := watch_bundleFileInputModel (Some (ZipBytes Sample.body_and_bad_model)) clean in
   out.1 = inl SyntaxError ∧
   currentBundle out.2 = Some (BundleInfo.mk "b-1" "report") ∧
   localStorage out.2 !! "currentBundle" = Some "b-1" ∧
   dirty out.2 = true).
Proof. cbv zeta. split_and!; vm_compute; reflexivity. Qed.

Lemma watch_bundleFileInputModel_outcome_witness :
  let st := Sample.state Sample.session false in
  let out := watch_bundleFileInputModel (Some (ZipBytes Sample.header_only)) st in
  (loadBundle (ZipBytes Sample.header_only) (renderTemplateData st)).1 = inr () ∧
  currentBundle out.2 = None ∧
  localStorage out.2 !! "currentBundle" = None ∧
  observed_writes Sample.header_only (renderTemplateData st) = true ∧
  dirty out.2 = true.
Proof.
  cbv zeta.
  destruct (watch_bundleFileInputModel_outcome (ZipBytes Sample.header_only)
              (Sample.state Sample.session false)) as (Hok & _ & Hdirty & _).
  destruct Hok as (_ & _ & Hcurrent & Hstorage & _); [vm_compute; reflexivity|].
  split_and!; [vm_compute; reflexivity|exact Hcurrent|exact Hstorage
              |vm_compute; reflexivity|].
  rewrite Hdirty. vm_compute. reflexivity.
Defined.
End Concrete.

(* ===================================================================== *)
(** ** Further properties of the archive codec *)
(* ===================================================================== *)

Section CodecProperties.
Context `{JsonApi} `{RenderDataBase}.
Implicit Types (z : JsZip.t) (data target t : RenderTemplateDataViewModel)
  (inc : IncludedFiles.t).

Lemma data_eq t t' :
  htmlTemplate t = htmlTemplate t' →
  headerHtmlTemplate t = headerHtmlTemplate t' →
  footerHtmlTemplate t = footerHtmlTemplate t' →
  options t = options t' →
  (model t, modelStr t) = (model t', modelStr t') →
  assets t = assets t' →
  templateEngine t = templateEngine t' →
  t = t'.
Proof. destruct t, t'; simpl. by intros -> -> -> -> [= -> ->] -> ->. Qed.

(** X1. Loading an archive a second time changes nothing: what [loadBundle]
    returns on the target it has just left is what it returned then,
    whether it succeeded or threw. *)
Theorem loadBundle_idempotent (bytes : ArchiveBytes) target :
  loadBundle bytes (loadBundle bytes target).2 = loadBundle bytes target.
Proof.
  destruct bytes as [z|raw]; [|done].
  set (once := loadBundle (ZipBytes z) target).
  apply injective_projections.
  - unfold once. by rewrite !loadBundle_result.
  - apply data_eq.
    + unfold once. rewrite !loadBundle_htmlTemplate. by destruct (truthy _).
    + unfold once. rewrite !loadBundle_headerHtmlTemplate. by destruct (truthy _).
    + unfold once. rewrite !loadBundle_footerHtmlTemplate. by destruct (truthy _).
    + unfold once. rewrite !loadBundle_options.
      destruct (truthy _); [|done]. by destruct (JSON_parse _).
    + pose proof (loadBundle_model z once.2) as Hagain.
      pose proof (loadBundle_model z target) as Honce.
      cbv zeta in Hagain, Honce. fold once in Honce.
      rewrite Hagain, Honce.
      destruct (_ && _); [|done]. by destruct (JSON_parse _).
    + unfold once. rewrite !loadBundle_assets_field. by destruct (_ && _).
    + unfold once. by rewrite !loadBundle_templateEngine.
Qed.

Lemma get_set_other (k name v : string) z :
  k ≠ name → JsZip.get name (JsZip.set k v z) = JsZip.get name z.
Proof. intros Hne. by apply get_set_ne. Qed.

Lemma loadBundle_assets_set (k v : string) z :
  String.prefix "assets/" k = false →
  loadBundle_assets (JsZip.set k v z) = loadBundle_assets z.
Proof.
  intros Hk.
  assert (loadBundle_assets [(k, v)] = []) as Hone.
  { cbn [loadBundle_assets]. change (BundleAssetsFolder +:+ "/") with "assets/".
    by rewrite Hk. }
  induction z as [|[k' v'] z IH]; [done|].
  cbn [JsZip.set]. destruct (decide (k' = k)) as [->|].
  - change ((k, v) :: z) with ([(k, v)] ++ z).
    change ((k, v') :: z) with ([(k, v')] ++ z).
    rewrite !loadBundle_assets_app, Hone.
    cbn [loadBundle_assets]. change (BundleAssetsFolder +:+ "/") with "assets/".
    by rewrite Hk.
  - change ((k', v') :: JsZip.set k v z) with ([(k', v')] ++ JsZip.set k v z).
    change ((k', v') :: z) with ([(k', v')] ++ z).
    by rewrite !loadBundle_assets_app, IH.
Qed.

(** X2. An entry of the archive that is none of the five members and is not
    under the assets folder is ignored: [loadBundle] does the same with
    and without it, whatever its content. *)
Theorem loadBundle_ignores_other_entries (k v : string) z target :
  k ∉ member_names →
  String.prefix "assets/" k = false →
  loadBundle (ZipBytes (JsZip.set k v z)) target = loadBundle (ZipBytes z) target.
Proof.
  intros Hk Hprefix. rewrite !loadBundle_zip.
  unfold member_names in Hk. rewrite !not_elem_of_cons in Hk.
  destruct Hk as (? & ? & ? & ? & ? & _).
  unfold load_options, load_model, load_assets, load_texts, options_text, model_text.
  rewrite !get_set_other by done. by rewrite loadBundle_assets_set.
Qed.
Lemma prefix_substring_from (p k : string) :
  String.prefix p k = true → p +:+ substring_from (String.length p) k = k.
Proof.
  revert k. induction p as [|c p IH]; intros k; [done|].
  destruct k as [|c' k]; [done|]. cbn [String.prefix].
  destruct (ascii_dec c c') as [->|]; [|done].
  intros Hp. cbn [String.length substring_from].
  rewrite string_app_cons. by rewrite IH.
Qed.

Lemma loadBundle_assets_cons (k v : string) z :
  loadBundle_assets ((k, v) :: z) =
    if String.prefix "assets/" k && negb (bool_decide (k = "assets/"))
    then Asset.mk (substring_from 7 k) v :: loadBundle_assets z
    else loadBundle_assets z.
Proof. done. Qed.

Lemma asset_entry_of_key (k v : string) :
  String.prefix "assets/" k = true →
  asset_entry (Asset.mk (substring_from 7 k) v) = (k, v).
Proof.
  intros Hk. pose proof (prefix_substring_from "assets/" k Hk) as Hkey.
  change (String.length "assets/") with 7%nat in Hkey.
  unfold asset_entry. cbn [Asset.name Asset.blob]. by rewrite Hkey.
Qed.

Lemma elem_of_loadBundle_assets (a : Asset.t) z :
  a ∈ loadBundle_assets z ↔
  ∃ k v : string, (k, v) ∈ z ∧ String.prefix "assets/" k = true ∧ k ≠ "assets/" ∧
                  a = Asset.mk (substring_from 7 k) v.
Proof.
  induction z as [|[k v] z IH].
  - split; [by intros ?%elem_of_nil|]. by intros (k & v & ?%elem_of_nil & _).
  - rewrite loadBundle_assets_cons.
    destruct (String.prefix "assets/" k) eqn:Hk; cbn [andb].
    + case_bool_decide as Hfolder; cbn [negb].
      * rewrite IH. split.
        -- intros (k' & v' & Hin & ?). exists k', v'. split; [by right|done].
        -- intros (k' & v' & [[= -> ->]|Hin]%elem_of_cons & Hk' & Hne & ->); [done|].
           by exists k', v'.
      * rewrite elem_of_cons, IH. split.
        -- intros [->|(k' & v' & Hin & ?)].
           ++ exists k, v. split; [left|done].
           ++ exists k', v'. split; [by right|done].
        -- intros (k' & v' & [[= -> ->]|Hin]%elem_of_cons & Hk' & Hne & ->); [by left|].
           right. by exists k', v'.
    + rewrite IH. split.
      * intros (k' & v' & Hin & ?). exists k', v'. split; [by right|done].
      * intros (k' & v' & [[= -> ->]|Hin]%elem_of_cons & Hk' & Hne & ->); [congruence|].
        by exists k', v'.
Qed.

(** X3. The assets [loadBundle] collects are the entries under the assets
    folder, the folder entry apart, in the order of the archive and with
    the content of their entry; no asset has an empty name, and the names
    are pairwise distinct when the entry names are. *)
Theorem loadBundle_assets_wellformed z :
  asset_entry <$> loadBundle_assets z `sublist_of` z ∧
  (∀ k v : string, (k, v) ∈ z → String.prefix "assets/" k = true → k ≠ "assets/" →
     Asset.mk (substring_from 7 k) v ∈ loadBundle_assets z) ∧
  (∀ a, a ∈ loadBundle_assets z → Asset.name a ≠ EmptyString) ∧
  (NoDup (JsZip.keys z) → NoDup (Asset.name <$> loadBundle_assets z)).
Proof.
  assert (asset_entry <$> loadBundle_assets z `sublist_of` z) as Hsub.
  { induction z as [|[k v] z IH]; [done|].
    rewrite loadBundle_assets_cons.
    destruct (String.prefix "assets/" k) eqn:Hk; cbn [andb].
    - destruct (negb _).
      + rewrite fmap_cons, asset_entry_of_key by done. by apply sublist_skip.
      + by apply sublist_cons.
    - by apply sublist_cons. }
  split_and!; [done|..].
  - intros k v Hin Hk Hne. apply elem_of_loadBundle_assets. by exists k, v.
  - intros a (k & v & _ & Hk & Hne & ->)%elem_of_loadBundle_assets.
    cbn [Asset.name]. intros Hempty. apply Hne.
    pose proof (prefix_substring_from "assets/" k Hk) as Hkey.
    change (String.length "assets/") with 7%nat in Hkey.
    by rewrite <- Hkey, Hempty.
  - intros Hdup.
    assert (NoDup ((asset_entry <$> loadBundle_assets z).*1)) as Hkeys.
    { apply (sublist_NoDup _ (JsZip.keys z)); [done|].
      unfold JsZip.keys. by apply fmap_sublist. }
    rewrite <- list_fmap_compose in Hkeys.
    apply (NoDup_fmap_1 (λ n : string, "assets/" +:+ n)).
    by rewrite <- list_fmap_compose.
Qed.
(** X4. Options that have a value for every baseline key keep one through
    every [loadBundle], whatever the archive holds and whether the call
    succeeds or throws. *)
Theorem loadBundle_keeps_baseline_keys (bytes : ArchiveBytes) target :
  dom getBaseOptions ⊆ dom (options target) →
  dom getBaseOptions ⊆ dom (options (loadBundle bytes target).2).
Proof.
  intros Hdom. destruct bytes as [z|raw]; [|done].
  rewrite loadBundle_options.
  destruct (truthy (options_text z)); [|done].
  destruct (JSON_parse _) as [v|]; [|done].
  unfold spread. rewrite dom_union. set_solver.
Qed.

(** X5. [packBundle] reads the fields of the session that the selection
    names and no other: two sessions that agree on them are packed to
    the same archive, or fail alike. *)
Theorem packBundle_reads_selected_only data data' inc :
  (IncludedFiles.index inc = true → htmlTemplate data = htmlTemplate data') →
  (IncludedFiles.header inc = true → headerHtmlTemplate data = headerHtmlTemplate data') →
  (IncludedFiles.footer inc = true → footerHtmlTemplate data = footerHtmlTemplate data') →
  (IncludedFiles.options inc = true → options data = options data') →
  (IncludedFiles.exampleModel inc = true → modelStr data = modelStr data') →
  (IncludedFiles.assets inc = true → assets data = assets data') →
  packBundle data inc = packBundle data' inc.
Proof.
  intros Hi Hh Hf Ho Hm Ha. rewrite !packBundle_eq.
  assert (fill_members data inc JsZip.empty = fill_members data' inc JsZip.empty) as ->.
  { unfold fill_members.
    destruct (IncludedFiles.index inc); [rewrite Hi by done|];
      (destruct (IncludedFiles.header inc); [rewrite Hh by done|]);
      (destruct (IncludedFiles.footer inc); [rewrite Hf by done|]);
      (destruct (IncludedFiles.options inc); [rewrite Ho by done|]); done. }
  assert (∀ z, fill_assets data inc z = fill_assets data' inc z) as Hassets.
  { intros z. unfold fill_assets.
    destruct (IncludedFiles.assets inc); [by rewrite Ha|done]. }
  destruct (IncludedFiles.exampleModel inc);
    [rewrite Hm by done; destruct (JSON_parse _); [|done]|];
    by rewrite Hassets.
Qed.

Lemma get_write_assets_other (k : string) (l : list Asset.t) z :
  JsZip.ends_with_slash k = false →
  (∀ b, b ∈ l → "assets/" +:+ Asset.name b ≠ k) →
  JsZip.get k (foldl write_asset z l) = JsZip.get k z.
Proof.
  intros Hk. revert z. induction l as [|b l IH]; intros z Hne; [done|].
  cbn [foldl]. rewrite IH by (intros; apply Hne; by right).
  unfold write_asset. apply get_file_ne; [done|].
  intros ->. by apply (Hne b); [left|].
Qed.

(** X6. When several assets of the session have the same name, the archive
    has one entry for them, with the blob of the last one. *)
Theorem packBundle_last_asset_wins data inc z (before after : list Asset.t) (a : Asset.t) :
  IncludedFiles.assets inc = true →
  assets data = before ++ a :: after →
  (∀ b, b ∈ after → Asset.name b ≠ Asset.name a) →
  Asset.name a ≠ EmptyString →
  JsZip.ends_with_slash (Asset.name a) = false →
  packBundle data inc = inr (ZipBytes z) →
  JsZip.get ("assets/" +:+ Asset.name a) z = Some (Asset.blob a).
Proof.
  intros Hsel Hassets Hafter Hname Hslash. rewrite packBundle_eq.
  assert (∀ z0, JsZip.get ("assets/" +:+ Asset.name a) (fill_assets data inc z0)
                = Some (Asset.blob a)) as Hget.
  { intros z0. unfold fill_assets. rewrite Hsel, Hassets.
    rewrite foldl_app. cbn [foldl].
    rewrite get_write_assets_other.
    - unfold write_asset. apply get_file_eq.
    - rewrite !string_app_cons, string_app_nil.
      rewrite !ends_with_slash_cons; [done|done|by intros [=]..].
    - intros b Hb Heq. apply (Hafter b Hb). by apply asset_path_inj. }
  destruct (IncludedFiles.exampleModel inc).
  - destruct (JSON_parse (modelStr data)); [|done]. by intros [= <-].
  - by intros [= <-].
Qed.
Lemma selected_names_not_assets data inc :
  Forall (λ k, String.prefix "assets/" k = false) (selected_names data inc).
Proof.
  unfold selected_names.
  repeat (apply Forall_app; split); by repeat case_match; repeat constructor.
Qed.

(** X7. A partial archive, loaded. When the assets are not selected, loading
    the archive that [packBundle] made of a session gives the target the
    body, the header and the footer of the session where they are
    selected and not empty, and leaves the other text fields, the
    assets, the template engine and, when the options are not selected,
    the options of the target as they were. An empty body is written to
    the archive but does not replace the body of the target. *)
Theorem partial_archive_loaded data inc target z :
  IncludedFiles.assets inc = false →
  packBundle data inc = inr (ZipBytes z) →
  let target' := (loadBundle (ZipBytes z) target).2 in
  htmlTemplate target' =
    (if IncludedFiles.index inc && truthy (htmlTemplate data)
     then htmlTemplate data else htmlTemplate target) ∧
  headerHtmlTemplate target' =
    (if IncludedFiles.header inc && truthy (headerHtmlTemplate data)
     then headerHtmlTemplate data else headerHtmlTemplate target) ∧
  footerHtmlTemplate target' =
    (if IncludedFiles.footer inc && truthy (footerHtmlTemplate data)
     then footerHtmlTemplate data else footerHtmlTemplate target) ∧
  (IncludedFiles.options inc = false → options target' = options target) ∧
  assets target' = assets target ∧
  templateEngine target' = templateEngine target.
Proof.
  intros Hoff Hpack. cbv zeta.
  destruct (packBundle_archive data inc) as (_ & _ & Hget).
  destruct (Hget z Hpack) as (Hi & Hh & Hf & Ho & _ & _ & Hkeys).
  rewrite loadBundle_htmlTemplate, loadBundle_headerHtmlTemplate,
    loadBundle_footerHtmlTemplate, loadBundle_options, loadBundle_assets_field,
    loadBundle_templateEngine.
  unfold options_text. rewrite Hi, Hh, Hf, Ho.
  rewrite loadBundle_assets_none
    by (rewrite Hkeys by (by left); apply selected_names_not_assets).
  split_and!.
  - destruct (IncludedFiles.index inc); [|done].
    by destruct (htmlTemplate data) as [[|]|].
  - destruct (IncludedFiles.header inc && truthy (headerHtmlTemplate data)) eqn:E; [|done].
    apply andb_prop in E as [_ ->]. done.
  - destruct (IncludedFiles.footer inc && truthy (footerHtmlTemplate data)) eqn:E; [|done].
    apply andb_prop in E as [_ ->]. done.
  - by intros ->.
  - by rewrite andb_false_r.
  - done.
Qed.
End CodecProperties.

(* ===================================================================== *)
(** ** Further properties of the reconciler and of the page *)
(* ===================================================================== *)

Section ReconcilerProperties.
Context `{JsonApi} `{RenderDataBase} `{Server} `{BaseDataAssign}.
Implicit Types (z : JsZip.t) (st : State) (data : RenderTemplateDataViewModel).

(** X8. A partial download never fails and never changes the state of the
    composable: its archive has no example model, so the model string is
    not parsed. The archive of [onlyBody] is [index.html] alone, also for
    an empty body; the archives of [onlyHeader] and [onlyFooter] are
    empty when the session has no header or footer. The full download
    fails exactly when the model string is no JSON text. *)
Theorem downloadBundle_partial st :
  (∀ only : DownloadOnly,
     ∃ z, downloadBundle (Some only) st = (inr (ZipBytes z, "pdf-turtle-bundle.zip"), st) ∧
          JsZip.get "example-model.json" z = None) ∧
  (∃ z, downloadBundle (Some onlyBody) st = (inr (ZipBytes z, "pdf-turtle-bundle.zip"), st) ∧
        JsZip.keys z = ["index.html"]) ∧
  (∃ z, downloadBundle (Some onlyHeader) st = (inr (ZipBytes z, "pdf-turtle-bundle.zip"), st) ∧
        JsZip.keys z =
          if truthy (headerHtmlTemplate (renderTemplateData st))
          then ["header.html"] else []) ∧
  (∃ z, downloadBundle (Some onlyFooter) st = (inr (ZipBytes z, "pdf-turtle-bundle.zip"), st) ∧
        JsZip.keys z =
          if truthy (footerHtmlTemplate (renderTemplateData st))
          then ["footer.html"] else []) ∧
  (downloadBundle None st = (inl SyntaxError, st) ↔
     JSON_parse (modelStr (renderTemplateData st)) = None) ∧
  (∀ only, (downloadBundle only st).2 = st).
Proof.
  assert (∀ only : DownloadOnly,
    ∃ z, packBundle (renderTemplateData st) (downloadBundle_includedFiles (Some only))
           = inr (ZipBytes z) ∧
         JsZip.get "example-model.json" z = None ∧
         (IncludedFiles.assets (downloadBundle_includedFiles (Some only)) = false →
          JsZip.keys z
            = selected_names (renderTemplateData st)
                (downloadBundle_includedFiles (Some only)))) as Hpack.
  { intros only.
    destruct (packBundle_archive (renderTemplateData st)
                (downloadBundle_includedFiles (Some only))) as (_ & Hex & Hget).
    destruct Hex as [z Hz]; [left; by destruct only|].
    exists z. split; [done|].
    destruct (Hget z Hz) as (_ & _ & _ & _ & Hmodel & _ & Hkeys).
    split; [rewrite Hmodel; by destruct only|]. intros Hoff. apply Hkeys. by left. }
  unfold downloadBundle. split_and!.
  - intros only. destruct (Hpack only) as (z & -> & Hmodel & _). by exists z.
  - destruct (Hpack onlyBody) as (z & -> & _ & Hkeys). exists z. split; [done|].
    by rewrite Hkeys.
  - destruct (Hpack onlyHeader) as (z & -> & _ & Hkeys). exists z. split; [done|].
    rewrite Hkeys by done. unfold selected_names. cbn.
    by destruct (truthy _).
  - destruct (Hpack onlyFooter) as (z & -> & _ & Hkeys). exists z. split; [done|].
    rewrite Hkeys by done. unfold selected_names. cbn.
    by destruct (truthy _).
  - destruct (packBundle_archive (renderTemplateData st) includedFilesAll)
      as (Hfail & _).
    cbn [downloadBundle_includedFiles].
    destruct (packBundle (renderTemplateData st) includedFilesAll) as [e|zip] eqn:Hp.
    + split.
      * intros [= ->]. by apply Hfail.
      * intros Hbad. destruct Hfail as [_ Hfail].
        pose proof (Hfail (conj eq_refl Hbad)). congruence.
    + split; [done|]. intros Hbad. destruct Hfail as [_ Hfail].
      pose proof (Hfail (conj eq_refl Hbad)). congruence.
  - intros only. by destruct (packBundle _ _).
Qed.

(** X9. No operation of the composable clears [bundleError]: once an error
    message is set it stays set, through loads, saves, listings,
    downloads, imports and the unload hook. *)
Theorem bundleError_never_cleared st :
  is_Some (bundleError st) →
  (∀ id, is_Some (bundleError (getBundle id st))) ∧
  (∀ name, is_Some (bundleError (storeBundle name st).2)) ∧
  is_Some (bundleError (loadBundlesInfo st).2) ∧
  (∀ only, is_Some (bundleError (downloadBundle only st).2)) ∧
  (∀ b, is_Some (bundleError (watch_bundleFileInputModel b st).2)) ∧
  is_Some (bundleError (watch_renderTemplateData st)) ∧
  is_Some (bundleError (cleanLocalStorageBundle st)) ∧
  is_Some (bundleError (onbeforeunload st).1).
Proof.
  intros Hset. split_and!; try done.
  - intros id. rewrite getBundle_eq. unfold getBundle_catch.
    destruct (fetch _) as [e|[] statusText [e|data]]; simpl; eauto.
    destruct (form_bundle data) as [bundle|]; simpl; eauto.
    destruct (loadBundle_notifies bundle (renderTemplateData st));
      destruct (loadBundle bundle (renderTemplateData st)) as [[e|[]] target];
      simpl; eauto.
    all: by destruct (hasChanged _ _).
  - intros name. unfold storeBundle.
    destruct (packBundle _ _); simpl; eauto.
    destruct (SaveHtmlBundleService_htmlBundle _); simpl; eauto.
  - unfold loadBundlesInfo.
    destruct ListHtmlBundlesInfoService_htmlBundle; simpl; eauto.
  - intros only. unfold downloadBundle. by destruct (packBundle _ _).
  - intros [bytes|]; [|done]. rewrite watch_bundleFileInputModel_eq. cbv zeta.
    cbn [renderTemplateData set_bundleFileInputModel].
    by destruct (loadBundle_notifies bytes (renderTemplateData st));
      destruct (loadBundle bytes (renderTemplateData st)) as [[e|[]] target].
  - unfold onbeforeunload. destruct (currentBundle st); [|done]. by destruct (truthy _).
Qed.

(** X10. A session whose model string is no JSON text cannot be saved,
    whatever the remote store would answer: [storeBundle] returns the
    empty id and sets [bundleError], and nothing else changes. *)
Theorem storeBundle_invalid_model (name : string) st :
  JSON_parse (modelStr (renderTemplateData st)) = None →
  storeBundle name st =
    (EmptyString,
     set_bundleError (Some ("Error saving bundle: " +:+ exn_toString SyntaxError)) st).
Proof.
  intros Hbad. unfold storeBundle.
  destruct (packBundle_archive (renderTemplateData st) includedFilesAll)
    as ([_ Hfail] & _).
  by rewrite Hfail.
Qed.

(** X11. The id that a save sends. After a successful save, the next save
    is sent with the id the store returned (an update of the same
    bundle, under the name now given), and its outcome is the answer of
    the store to that request. *)
Theorem storeBundle_resends_id (name name' : string) st (bundle : ArchiveBytes)
    (id1 id2 : string) :
  packBundle (renderTemplateData st) includedFilesAll = inr bundle →
  SaveHtmlBundleService_htmlBundle
    {| save_bundle := bundle; save_name := name;
       save_id := default EmptyString (BundleInfo.id <$> currentBundle st);
       save_templateEngine := templateEngine (renderTemplateData st) |} = inr id1 →
  SaveHtmlBundleService_htmlBundle
    {| save_bundle := bundle; save_name := name'; save_id := id1;
       save_templateEngine := templateEngine (renderTemplateData st) |} = inr id2 →
  let again := storeBundle name' (storeBundle name st).2 in
  again.1 = id2 ∧
  currentBundle again.2 = Some (BundleInfo.mk id2 name') ∧
  dirty again.2 = false.
Proof.
  intros Hpack Hfirst Hsecond. cbv zeta. unfold storeBundle.
  rewrite Hpack, Hfirst.
  cbn [snd renderTemplateData set_dirty set_currentBundle currentBundle].
  rewrite Hpack. simpl. by rewrite Hsecond.
Qed.

(** X12. After a successful [getBundle], a save is sent with the id that was
    fetched and with the template engine of the tag of the response. *)
Theorem storeBundle_after_getBundle (id name statusText : string) st
    (form : BundleFormData) (z : JsZip.t) (bundle : ArchiveBytes) (id2 : string) :
  fetch (serverBaseUrl +:+ "/api/html-bundle/" +:+ id)
    = FetchResponse true statusText (inr form) →
  form_bundle form = Some (ZipBytes z) →
  (loadBundle (ZipBytes z) (renderTemplateData st)).1 = inr () →
  packBundle (loadBundle (ZipBytes z) (renderTemplateData st)).2 includedFilesAll
    = inr bundle →
  SaveHtmlBundleService_htmlBundle
    {| save_bundle := bundle; save_name := name; save_id := id;
       save_templateEngine :=
         EnumRenderTemplateDataTemplateEngine (form_templateEngine form) |} = inr id2 →
  let saved := storeBundle name (getBundle id st) in
  saved.1 = id2 ∧
  currentBundle saved.2 = Some (BundleInfo.mk id2 name) ∧
  dirty saved.2 = false.
Proof.
  intros Hfetch Hform Hload Hpack Hsave. cbv zeta.
  rewrite getBundle_eq, Hfetch, Hform. cbv zeta.
  destruct (loadBundle (ZipBytes z) (renderTemplateData st)) as [[e|[]] target];
    [done|]. cbn [fst snd] in *.
  assert (packBundle (set_templateEngine
            (EnumRenderTemplateDataTemplateEngine (form_templateEngine form)) target)
            includedFilesAll = inr bundle) as Hpack'.
  { by rewrite <- Hpack. }
  unfold storeBundle.
  destruct (hasChanged _ _);
    destruct (loadBundle_notifies (ZipBytes z) (renderTemplateData st));
    cbn [flush_watch watch_renderTemplateData renderTemplateData set_dirty
         set_currentBundle set_renderTemplateData currentBundle];
    rewrite Hpack'; simpl; by rewrite Hsave.
Qed.

(** X13. The resume pointer. The unload hook writes the id of the current
    bundle when there is one with a non-empty id, and the composable that
    starts on that storage resumes by [getBundle] of this id. Without a
    current bundle the hook leaves the storage as it is: a pointer that
    was there is still there. The hook asks for confirmation exactly when
    [dirty] is set, and changes nothing but the storage. *)
Theorem onbeforeunload_resume st :
  let st' := (onbeforeunload st).1 in
  (∀ info, currentBundle st = Some info → BundleInfo.id info ≠ EmptyString →
     localStorage st' !! "currentBundle" = Some (BundleInfo.id info) ∧
     ∀ data, useBundleHandling data (localStorage st')
             = getBundle (BundleInfo.id info)
                 (mkState data None false None None (localStorage st'))) ∧
  (currentBundle st = None → localStorage st' = localStorage st) ∧
  ((onbeforeunload st).2 = None ↔ dirty st = false) ∧
  set_localStorage (localStorage st) st' = st.
Proof.
  cbv zeta. unfold onbeforeunload. split_and!.
  - intros info -> Hid. rewrite truthy_nonempty by done.
    cbn [fst localStorage set_localStorage]. split; [apply lookup_insert_eq|].
    intros data. unfold useBundleHandling.
    rewrite lookup_insert_eq. by rewrite truthy_nonempty.
  - by intros ->.
  - destruct (currentBundle st) as [info|]; [destruct (truthy _)|];
      cbn [snd dirty set_localStorage]; by destruct (dirty st).
  - destruct st as [d c di e f l]. cbn [currentBundle].
    destruct c as [info|]; [destruct (truthy _)|]; done.
Qed.

(** X14. After the import of a local file that decodes, the unload hook
    writes no resume pointer and the next start of the composable
    resumes nothing: it is the initial state, with no fetch. *)
Theorem import_then_restart (bytes : ArchiveBytes) st data :
  (loadBundle bytes (renderTemplateData st)).1 = inr () →
  let imported := (watch_bundleFileInputModel (Some bytes) st).2 in
  let storage := localStorage (onbeforeunload imported).1 in
  storage !! "currentBundle" = None ∧
  useBundleHandling data storage = mkState data None false None None storage.
Proof.
  intros Hload. cbv zeta.
  rewrite watch_bundleFileInputModel_eq. cbv zeta.
  unfold cleanLocalStorageBundle.
  cbn [renderTemplateData set_bundleFileInputModel].
  destruct (loadBundle bytes (renderTemplateData st)) as [[e|[]] target]; [done|].
  unfold onbeforeunload.
  destruct (loadBundle_notifies bytes (renderTemplateData st));
    cbn [snd fst currentBundle set_bundleFileInputModel flush_watch
         watch_renderTemplateData set_dirty set_renderTemplateData
         set_localStorage set_currentBundle localStorage].
  all: split; [apply lookup_delete_eq|].
  all: unfold useBundleHandling; by rewrite lookup_delete_eq.
Qed.

(** X15. [cleanLocalStorageBundle] removes the resume pointer and nothing
    else, and the composable that starts on the cleaned storage does not
    fetch. A pointer that is the empty string is no pointer either. *)
Theorem no_pointer_no_resume st data (storage : gmap string string) :
  (∀ k : string, k ≠ "currentBundle" →
     localStorage (cleanLocalStorageBundle st) !! k = localStorage st !! k) ∧
  cleanLocalStorageBundle (cleanLocalStorageBundle st) = cleanLocalStorageBundle st ∧
  useBundleHandling data (localStorage (cleanLocalStorageBundle st))
    = mkState data None false None None (localStorage (cleanLocalStorageBundle st)) ∧
  useBundleHandling data (<["currentBundle" := EmptyString]> storage)
    = mkState data None false None None (<["currentBundle" := EmptyString]> storage).
Proof.
  unfold cleanLocalStorageBundle. cbn [localStorage set_localStorage]. split_and!.
  - intros k Hk. by apply lookup_delete_ne.
  - unfold set_localStorage. cbn. by rewrite delete_delete_eq.
  - unfold useBundleHandling. by rewrite lookup_delete_eq.
  - unfold useBundleHandling. by rewrite lookup_insert_eq.
Qed.

(** X16. The resume at the start never fails the start: when the fetch of
    the saved bundle is rejected, or its response is not ok, the
    composable starts in its initial state with [bundleError] set and the
    session as it was given. *)
Theorem useBundleHandling_resume_failure data (storage : gmap string string)
    (id : string) :
  storage !! "currentBundle" = Some id →
  id ≠ EmptyString →
  let url := serverBaseUrl +:+ "/api/html-bundle/" +:+ id in
  (∀ e, fetch url = FetchRejected e →
     useBundleHandling data storage
       = mkState data None false
           (Some ("Error loading bundle: " +:+ exn_toString e)) None storage) ∧
  (∀ statusText body, fetch url = FetchResponse false statusText body →
     useBundleHandling data storage
       = mkState data None false
           (Some ("Error loading bundle: " +:+ statusText)) None storage).
Proof.
  intros Hid Hne. cbv zeta. unfold useBundleHandling. rewrite Hid.
  rewrite truthy_nonempty by done. simpl.
  unfold getBundle, getBundle_catch. split.
  - by intros e ->.
  - by intros statusText body ->.
Qed.
(** X17. Saving from the page. While a bundle is linked and has a name, a
    save that is no rename stores under the name of the bundle: the name
    typed in the dialog plays no part. A rename, and a save without any
    name, open the dialog and store nothing. *)
Theorem saveBundle_name (p : Playground.t) :
  (∀ info, currentBundle (Playground.handling p) = Some info →
     BundleInfo.name info ≠ EmptyString →
     Playground.saveBundle false p
       = Playground.mk (storeBundle (BundleInfo.name info) (Playground.handling p)).2
           (Playground.bundleDialog p)) ∧
  (currentBundle (Playground.handling p) = None →
     Playground.bundleName (Playground.bundleDialog p) ≠ EmptyString →
     Playground.saveBundle false p
       = Playground.mk
           (storeBundle (Playground.bundleName (Playground.bundleDialog p))
              (Playground.handling p)).2
           (Playground.bundleDialog p)) ∧
  (currentBundle (Playground.handling p) = None →
     Playground.bundleName (Playground.bundleDialog p) = EmptyString →
     Playground.handling (Playground.saveBundle false p) = Playground.handling p ∧
     Playground.show (Playground.bundleDialog (Playground.saveBundle false p)) = true) ∧
  Playground.handling (Playground.saveBundle true p) = Playground.handling p ∧
  Playground.show (Playground.bundleDialog (Playground.saveBundle true p)) = true ∧
  Playground.saving (Playground.bundleDialog (Playground.saveBundle true p)) = true.
Proof.
  unfold Playground.saveBundle. split_and!.
  - intros info -> Hname. by rewrite truthy_nonempty.
  - intros -> Hname. by rewrite truthy_nonempty.
  - intros -> ->. done.
  - by rewrite orb_true_r.
  - by rewrite orb_true_r.
  - by rewrite orb_true_r.
Qed.

(** X18. Starting over from the page. [loadEmptyData] and [loadSampleData]
    both unlink the session; only [loadSampleData] removes the resume
    pointer. A pointer that the storage holds is still there after
    [loadEmptyData] and the unload hook, so that the next start resumes
    the bundle it names; after [loadSampleData] the next start resumes
    nothing. *)
Theorem start_over_and_resume (p : Playground.t) :
  let emptied := Playground.handling (Playground.loadEmptyData p) in
  let sampled := Playground.handling (Playground.loadSampleData p) in
  currentBundle emptied = None ∧
  currentBundle sampled = None ∧
  localStorage emptied = localStorage (Playground.handling p) ∧
  (∀ (id : string) data,
     localStorage (Playground.handling p) !! "currentBundle" = Some id →
     id ≠ EmptyString →
     useBundleHandling data (localStorage (onbeforeunload emptied).1)
       = getBundle id
           (mkState data None false None None (localStorage (Playground.handling p)))) ∧
  (∀ data,
     useBundleHandling data (localStorage (onbeforeunload sampled).1)
       = mkState data None false None None (localStorage (onbeforeunload sampled).1)).
Proof.
  cbv zeta. unfold Playground.loadEmptyData, Playground.loadSampleData,
    cleanLocalStorageBundle, onbeforeunload.
  destruct (assign_base_data true _) as [emptyData []];
    destruct (assign_base_data false _) as [sampleData []];
    cbn [Playground.handling currentBundle set_currentBundle set_renderTemplateData
         flush_watch watch_renderTemplateData set_dirty
         set_localStorage localStorage fst].
  all: split_and!; try done.
  all: try (intros id data Hid Hne; unfold useBundleHandling;
            rewrite Hid; by rewrite truthy_nonempty).
  all: intros data; unfold useBundleHandling; by rewrite lookup_delete_eq.
Qed.
End ReconcilerProperties.

(* ===================================================================== *)
(** ** The further properties on concrete sessions and archives *)
(* ===================================================================== *)

Section MoreConcrete.
#[local] Existing Instance MiniJson.api.
#[local] Existing Instance Sample.base.
#[local] Existing Instance PageSample.assign.

Lemma loadBundle_ignores_other_entries_witness :
  ("README.md" ∉ member_names) ∧
  String.prefix "assets/" "README.md" = false ∧
  loadBundle (ZipBytes (JsZip.set "README.md" "notes" Sample.header_only)) Sample.session
    = loadBundle (ZipBytes Sample.header_only) Sample.session.
Proof.
  assert ("README.md" ∉ member_names) as Hother.
  { unfold member_names. rewrite !not_elem_of_cons.
    split_and!; try discriminate. apply not_elem_of_nil. }
  split_and!; [exact Hother|reflexivity|].
  apply loadBundle_ignores_other_entries; [exact Hother|reflexivity].
Defined.

(** An archive with a folder inside the assets folder: the inner folder
    entry is collected as an asset of its own. *)
Lemma loadBundle_assets_wellformed_witness :
  loadBundle_assets PageSample.with_assets
    = [Asset.mk "logo.png" "PNG-bytes"; Asset.mk "fonts/" EmptyString;
       Asset.mk "fonts/a.ttf" "TTF-bytes"] ∧
  NoDup (JsZip.keys PageSample.with_assets) ∧
  NoDup (Asset.name <$> loadBundle_assets PageSample.with_assets).
Proof.
  assert (NoDup (JsZip.keys PageSample.with_assets)) as Hkeys.
  { apply (bool_decide_unpack _). vm_compute. exact I. }
  split_and!; [vm_compute; reflexivity|exact Hkeys|].
  destruct (loadBundle_assets_wellformed PageSample.with_assets) as (_ & _ & _ & Hdup).
  apply Hdup. exact Hkeys.
Defined.

Lemma loadBundle_keeps_baseline_keys_witness :
  dom getBaseOptions ⊆ dom (options Sample.session) ∧
  dom getBaseOptions
    ⊆ dom (options (loadBundle (ZipBytes Sample.landscape_only) Sample.session).2).
Proof.
  assert (dom getBaseOptions ⊆ dom (options Sample.session)) as Hdom.
  { cbn [getBaseOptions Sample.base Sample.session options].
    rewrite dom_insert. set_solver. }
  split; [exact Hdom|].
  apply loadBundle_keeps_baseline_keys. exact Hdom.
Defined.

Lemma packBundle_reads_selected_only_witness :
  packBundle Sample.session (downloadBundle_includedFiles (Some onlyHeader))
    = packBundle (set_modelStr "{" (set_htmlTemplate None Sample.session))
        (downloadBundle_includedFiles (Some onlyHeader)).
Proof.
  apply packBundle_reads_selected_only; (reflexivity || discriminate).
Defined.

Lemma packBundle_last_asset_wins_witness :
  let data := set_assets PageSample.twice Sample.session in
  ∃ z, packBundle data includedFilesAll = inr (ZipBytes z) ∧
       JsZip.get "assets/logo.png" z = Some "new".
Proof.
  cbv zeta.
  destruct (packBundle (set_assets PageSample.twice Sample.session) includedFilesAll)
    as [e|[z|raw]] eqn:Hpack; [vm_compute in Hpack; discriminate| |
                                vm_compute in Hpack; discriminate].
  exists z. split; [reflexivity|].
  apply (packBundle_last_asset_wins
           (set_assets PageSample.twice Sample.session) includedFilesAll z
           [Asset.mk "logo.png" "old"; Asset.mk "font.ttf" "TTF"] []
           (Asset.mk "logo.png" "new"));
    try reflexivity; try discriminate; [|exact Hpack].
  intros b Hb. by apply elem_of_nil in Hb.
Defined.

Lemma partial_archive_loaded_witness :
  let data := set_htmlTemplate (Some EmptyString) Sample.session in
  ∃ z, packBundle data (downloadBundle_includedFiles (Some onlyBody)) = inr (ZipBytes z) ∧
       JsZip.get "index.html" z = Some EmptyString ∧
       htmlTemplate (loadBundle (ZipBytes z) Sample.scenario).2 = Some "<p>hi</p>" ∧
       assets (loadBundle (ZipBytes z) Sample.scenario).2 = [].
Proof.
  cbv zeta.
  destruct (packBundle (set_htmlTemplate (Some EmptyString) Sample.session)
              (downloadBundle_includedFiles (Some onlyBody)))
    as [e|[z|raw]] eqn:Hpack; [vm_compute in Hpack; discriminate| |
                                vm_compute in Hpack; discriminate].
  destruct (partial_archive_loaded (set_htmlTemplate (Some EmptyString) Sample.session)
              (downloadBundle_includedFiles (Some onlyBody)) Sample.scenario z
              eq_refl Hpack)
    as (Hbody & _ & _ & _ & Hassets & _).
  exists z. split; [reflexivity|].
  split; [vm_compute in Hpack; injection Hpack as <-; reflexivity|].
  split; [exact Hbody|exact Hassets].
Defined.

Lemma bundleError_never_cleared_witness :
  let st := set_bundleError (Some "Error loading bundles info: Error: offline")
              (Sample.state Sample.session false) in
  let srv := Sample.server Sample.header_only (inr "b-2") in
  is_Some (bundleError st) ∧
  is_Some (bundleError (@getBundle _ _ srv "b-2" st)) ∧
  is_Some (bundleError (@storeBundle _ srv "report" st).2).
Proof.
  cbv zeta.
  destruct (@bundleError_never_cleared _ _ (Sample.server Sample.header_only (inr "b-2"))
              (set_bundleError (Some "Error loading bundles info: Error: offline")
                 (Sample.state Sample.session false)))
    as (Hget & Hstore & _); [eexists; reflexivity|].
  split_and!; [eexists; reflexivity|apply Hget|apply Hstore].
Defined.

Lemma storeBundle_invalid_model_witness :
  let st := Sample.state (set_modelStr "{" Sample.session) true in
  JSON_parse (modelStr (renderTemplateData st)) = None ∧
  (@storeBundle _ (Sample.server [] (inr "b-7")) "report" st).1 = EmptyString ∧
  currentBundle (@storeBundle _ (Sample.server [] (inr "b-7")) "report" st).2
    = currentBundle st.
Proof.
  cbv zeta.
  assert (JSON_parse (modelStr (renderTemplateData
            (Sample.state (set_modelStr "{" Sample.session) true))) = None) as Hbad
    by (vm_compute; reflexivity).
  split; [exact Hbad|].
  rewrite (@storeBundle_invalid_model _ (Sample.server [] (inr "b-7")) "report"
             (Sample.state (set_modelStr "{" Sample.session) true) Hbad).
  split; reflexivity.
Defined.

Lemma storeBundle_resends_id_witness :
  let srv := Sample.server [] (inr "b-7") in
  let st := Sample.state Sample.session true in
  let again := @storeBundle _ srv "renamed" (@storeBundle _ srv "report" st).2 in
  again.1 = "b-7" ∧ currentBundle again.2 = Some (BundleInfo.mk "b-7" "renamed").
Proof.
  cbv zeta.
  destruct (packBundle Sample.session includedFilesAll) as [e|bundle] eqn:Hpack;
    [vm_compute in Hpack; discriminate|].
  destruct (@storeBundle_resends_id _ (Sample.server [] (inr "b-7")) "report" "renamed"
              (Sample.state Sample.session true) bundle "b-7" "b-7")
    as (Hid & Hcurrent & _); [exact Hpack|reflexivity|reflexivity|].
  split; [exact Hid|exact Hcurrent].
Defined.

Lemma storeBundle_after_getBundle_witness :
  let srv := Sample.server Sample.header_only (inr "b-9") in
  let st := Sample.state Sample.session true in
  let saved := @storeBundle _ srv "copy" (@getBundle _ _ srv "b-2" st) in
  saved.1 = "b-9" ∧ currentBundle saved.2 = Some (BundleInfo.mk "b-9" "copy").
Proof.
  cbv zeta.
  destruct (packBundle (loadBundle (ZipBytes Sample.header_only) Sample.session).2
              includedFilesAll) as [e|bundle] eqn:Hpack;
    [vm_compute in Hpack; discriminate|].
  destruct (@storeBundle_after_getBundle _ _ (Sample.server Sample.header_only (inr "b-9"))
              "b-2" "copy" "OK" (Sample.state Sample.session true)
              (mkForm (Some (ZipBytes Sample.header_only)) "fetched" "handlebars")
              Sample.header_only bundle "b-9")
    as (Hid & Hcurrent & _);
    [reflexivity|reflexivity|vm_compute; reflexivity|exact Hpack|reflexivity|].
  split; [exact Hid|exact Hcurrent].
Defined.

Lemma onbeforeunload_resume_witness :
  let st := Sample.state Sample.session true in
  currentBundle st = Some (BundleInfo.mk "b-1" "report") ∧
  localStorage (onbeforeunload st).1 !! "currentBundle" = Some "b-1" ∧
  (onbeforeunload st).2 = Some "there are unsaved data, are you sure you want to leave?".
Proof.
  cbv zeta.
  destruct (onbeforeunload_resume (H1 := Sample.server [] (inr "b-7"))
              (Sample.state Sample.session true)) as (Hlinked & _).
  destruct (Hlinked (BundleInfo.mk "b-1" "report")) as (Hpointer & _);
    [reflexivity|discriminate|].
  split_and!; [reflexivity|exact Hpointer|reflexivity].
Defined.

Lemma import_then_restart_witness :
  let st := Sample.state Sample.session true in
  let imported := (watch_bundleFileInputModel (Some (ZipBytes Sample.header_only)) st).2 in
  let storage := localStorage (onbeforeunload imported).1 in
  localStorage st !! "currentBundle" = Some "b-1" ∧
  storage !! "currentBundle" = None ∧
  currentBundle
    (@useBundleHandling _ _ (Sample.server Sample.header_only (inr "b-2"))
       Sample.scenario storage) = None.
Proof.
  cbv zeta.
  destruct (@import_then_restart _ _ (Sample.server Sample.header_only (inr "b-2"))
              (ZipBytes Sample.header_only) (Sample.state Sample.session true)
              Sample.scenario) as (Hpointer & Hstart); [vm_compute; reflexivity|].
  split_and!; [reflexivity|exact Hpointer|]. by rewrite Hstart.
Defined.

Lemma useBundleHandling_resume_failure_witness :
  let srv :=
    {| serverBaseUrl := "http://localhost:8000";
       fetch := λ _, FetchResponse false "Not Found" (inl (Error "no body"));
       ListHtmlBundlesInfoService_htmlBundle := inr [];
       SaveHtmlBundleService_htmlBundle := λ _, inr "b-7";
       EnumRenderTemplateDataTemplateEngine := Sample.engines |} in
  let storage : gmap string string := <["currentBundle" := "b-1"]> ∅ in
  @useBundleHandling _ _ srv Sample.scenario storage
    = mkState Sample.scenario None false
        (Some "Error loading bundle: Not Found") None storage.
Proof.
  cbv zeta.
  match goal with
  | |- @useBundleHandling _ _ ?srv ?data ?storage = _ =>
      destruct (@useBundleHandling_resume_failure _ _ srv data storage "b-1")
        as (_ & Hnotok); [reflexivity|discriminate|]
  end.
  apply (Hnotok "Not Found" (inl (Error "no body"))). reflexivity.
Defined.

Lemma saveBundle_name_witness :
  let srv := Sample.server [] (inr "b-7") in
  currentBundle (Playground.handling PageSample.linked)
    = Some (BundleInfo.mk "b-1" "report") ∧
  currentBundle (Playground.handling (@Playground.saveBundle _ srv false PageSample.linked))
    = Some (BundleInfo.mk "b-7" "report").
Proof.
  cbv zeta. split; [reflexivity|].
  destruct (@saveBundle_name _ (Sample.server [] (inr "b-7")) PageSample.linked)
    as (Hlinked & _).
  rewrite (Hlinked (BundleInfo.mk "b-1" "report")); [|reflexivity|discriminate].
  vm_compute. reflexivity.
Defined.

Lemma start_over_and_resume_witness :
  let srv := Sample.server Sample.header_only (inr "b-7") in
  let emptied := Playground.handling (Playground.loadEmptyData PageSample.linked) in
  localStorage (Playground.handling PageSample.linked) !! "currentBundle" = Some "b-1" ∧
  currentBundle emptied = None ∧
  currentBundle
    (@useBundleHandling _ _ srv Sample.scenario (localStorage (onbeforeunload emptied).1))
    = Some (BundleInfo.mk "b-1" "fetched").
Proof.
  cbv zeta.
  destruct (@start_over_and_resume _ _ (Sample.server Sample.header_only (inr "b-7"))
              PageSample.assign PageSample.linked) as (Hunlinked & _ & _ & Hresume & _).
  split_and!; [reflexivity|exact Hunlinked|].
  rewrite (Hresume "b-1" Sample.scenario); [|reflexivity|discriminate].
  vm_compute. reflexivity.
Defined.
Lemma no_pointer_no_resume_witness :
  let st := Sample.state Sample.session true in
  localStorage st !! "currentBundle" = Some "b-1" ∧
  localStorage (cleanLocalStorageBundle st) !! "currentBundle" = None ∧
  @useBundleHandling _ _ (Sample.server Sample.header_only (inr "b-2")) Sample.scenario
    (localStorage (cleanLocalStorageBundle st))
    = mkState Sample.scenario None false None None
        (localStorage (cleanLocalStorageBundle st)).
Proof.
  cbv zeta.
  destruct (@no_pointer_no_resume _ _ (Sample.server Sample.header_only (inr "b-2"))
              (Sample.state Sample.session true) Sample.scenario ∅)
    as (_ & _ & Hstart & _).
  split_and!; [reflexivity|vm_compute; reflexivity|exact Hstart].
Defined.
End MoreConcrete.
